(** * SmartLOGIC: a shallow embedding of the circuit elements

    The package has three Python modules: [smartlogic] (classes [Bit],
    [Bits], [BitsElem], [CircuitElement]), [smartlogic.base] ([Diode],
    [Triode]) and [smartlogic.gates] ([Gate], [NOTGate], [ANDGate]).

    Objects that are mutated and shared by reference ([Bit], [Bits]) live
    in a store indexed by object identity; methods are computations in a
    small state-and-exception monad over that store.  A [threading.Lock]
    is a flag in the object: acquiring a held lock never returns. *)

From Stdlib Require Import ZArith String Ascii DecimalString Lia.
From stdpp Require Import base option list strings gmap.

Local Open Scope Z_scope.

(** ** Python values and exceptions *)

(** The values that reach the code under study: the annotation of the state
    arguments is [bool | int]; [None] is what a body of [pass] returns;
    [VObj] stands for a class or a module, the objects global names are
    bound to: it is truthy and cannot serve as an index.  Slices and
    objects that define [__index__], [__bool__] or [__len__] are not among
    the values modelled. *)
Inductive value : Type :=
  | VNone
  | VBool (b : bool)
  | VInt (z : Z)
  | VStr (s : string)
  | VObj.

Inductive exn : Type :=
  | IndexError
  | ValueError
  | TypeError
  | NameError (name : string)
  | AttributeError
  | RuntimeError.

(** Object identities. *)
Abbreviation loc := nat.

(** ** Computations over a store

    [Ok a s]: returned [a] in store [s]; [Raise e s]: exception [e]
    propagated to the caller, in store [s]; [Blocks]: the thread waits for
    ever on a lock that is held. *)
Inductive outcome (S A : Type) : Type :=
  | Ok (a : A) (s : S)
  | Raise (e : exn) (s : S)
  | Blocks.
Arguments Ok {S A} a s.
Arguments Raise {S A} e s.
Arguments Blocks {S A}.

Definition M (S A : Type) : Type := S -> outcome S A.

Definition ret {S A} (a : A) : M S A := fun s => Ok a s.

Definition raise {S A} (e : exn) : M S A := fun s => Raise e s.

Definition bind {S A B} (c : M S A) (k : A -> M S B) : M S B :=
  fun s =>
    match c s with
    | Ok a s' => k a s'
    | Raise e s' => Raise e s'
    | Blocks => Blocks
    end.

Notation "'let*' x := c 'in' k" := (bind c (fun x => k))
  (at level 10, x name, c at level 100, k at level 200,
   format "'[v' 'let*'  x  :=  c  'in' '/' k ']'").
Notation "c ;;; k" := (bind c (fun _ => k))
  (at level 100, k at level 200, right associativity).

(** ** Built-ins of Python the package calls *)
Module Py.

(** [bool(v)] *)
Definition bool (v : value) : Datatypes.bool :=
  match v with
  | VNone => false
  | VBool b => b
  | VInt z => negb (z =? 0)
  | VStr s => negb (String.eqb s EmptyString)
  | VObj => true
  end.

(** [not v] *)
Definition not (v : value) : value := VBool (negb (bool v)).

(** [int(b)] for a [bool] [b] *)
Definition int_of_bool (b : Datatypes.bool) : Z := if b then 1 else 0.

(** [str(n)] for an [int] [n] *)
Definition str (n : Z) : string := NilZero.string_of_int (Z.to_int n).

(** [''.join(parts)] *)
Definition join (parts : list string) : string := String.concat EmptyString parts.

(** One binary digit. *)
Definition digit2 (c : ascii) : option Z :=
  if Ascii.eqb c "0"%char then Some 0
  else if Ascii.eqb c "1"%char then Some 1
  else None.

Fixpoint digits2 (acc : Z) (s : string) : option Z :=
  match s with
  | EmptyString => Some acc
  | String c rest =>
      match digit2 c with
      | Some d => digits2 (2 * acc + d) rest
      | None => None
      end
  end.

(** [int(s, 2)] on strings of binary digits: the empty string and any
    other character are a [ValueError].  (The built-in also accepts a
    sign, a [0b] prefix, single underscores between digits and blanks
    around the literal; no string built from [str(int(state))] has any of
    them, so that part of the built-in is not modelled.) *)
Definition int2 {S} (s : string) : M S Z :=
  match s with
  | EmptyString => raise ValueError
  | _ => match digits2 0 s with
         | Some n => ret n
         | None => raise ValueError
         end
  end.

(** The integer a value stands for when it is used as a list index
    ([bool] is a subclass of [int]); [None], a string, a class or a module
    is no index.  (A list also takes slices and objects with [__index__];
    these are not values of the model.) *)
Definition index (v : value) : option Z :=
  match v with
  | VInt z => Some z
  | VBool b => Some (int_of_bool b)
  | _ => None
  end.

(** Position addressed by index [i] in a list of length [n]: indices
    [0 .. n-1] count from the front, [-n .. -1] from the back. *)
Definition position (n : nat) (i : Z) : option nat :=
  if (0 <=? i) && (i <? Z.of_nat n) then Some (Z.to_nat i)
  else if (- Z.of_nat n <=? i) && (i <? 0) then Some (Z.to_nat (i + Z.of_nat n))
  else None.

(** [l[i]] *)
Definition getitem {S A} (l : list A) (i : value) : M S A :=
  match index i with
  | None => raise TypeError
  | Some z =>
      match position (length l) z with
      | None => raise IndexError
      | Some k =>
          match l !! k with
          | Some x => ret x
          | None => raise IndexError
          end
      end
  end.

(** [l[i] = x], returning the updated list *)
Definition setitem {S A} (l : list A) (i : value) (x : A) : M S (list A) :=
  match index i with
  | None => raise TypeError
  | Some z =>
      match position (length l) z with
      | None => raise IndexError
      | Some k => ret (<[k := x]> l)
      end
  end.

(** [zip(xs, ys)] stops with the shorter argument. *)
Fixpoint zip {A B} (xs : list A) (ys : list B) : list (A * B) :=
  match xs, ys with
  | x :: xs', y :: ys' => (x, y) :: zip xs' ys'
  | _, _ => []
  end.

(** [all(xs)]: truth-tests the items in order and stops at the first one
    that is false.  [truth] is the [__bool__] of the items' class. *)
Fixpoint all {S A} (truth : A -> M S Datatypes.bool) (xs : list A)
  : M S Datatypes.bool :=
  match xs with
  | [] => ret true
  | x :: rest =>
      let* b := truth x in
      if b then all truth rest else ret false
  end.

(** [all(bs)] when the items are [bool]s already *)
Fixpoint all_bools (bs : list Datatypes.bool) : Datatypes.bool :=
  match bs with
  | [] => true
  | b :: rest => if b then all_bools rest else false
  end.

(** Looking up a name that is free in a method body: the local scope,
    then the globals of the module, then the built-ins.  A class or a
    function found there is an object. *)
Definition name {S} (locals : list (string * value))
    (globals builtins : list string) (x : string) : M S value :=
  match List.find (fun kv => String.eqb (fst kv) x) locals with
  | Some kv => ret (snd kv)
  | None =>
      if existsb (String.eqb x) (globals ++ builtins) then ret VObj
      else raise (NameError x)
  end.

(** Binding the positional arguments [args] of a call to [n] parameters
    that are all required and have no default: a [TypeError] when an
    argument is missing or one is left over.  (Calls that pass arguments
    by keyword are not modelled.) *)
Definition positional {S A} (n : nat) (args : list A) : M S (list A) :=
  if Nat.eqb (Datatypes.length args) n then ret args else raise TypeError.

(** The built-in names the package uses; no built-in of Python is called
    [index]. *)
Definition builtins : list string :=
  ["bool"; "int"; "str"; "len"; "all"; "zip"; "hex"; "id"; "super";
   "object"; "list"; "True"; "False"; "None"]%string.

End Py.

(** ** Objects in the store *)

(** Reading all attributes of the object [self].  An identity the store
    does not hold stands for an object that is not of the class: it has
    none of the attributes. *)
Definition load {T} (self : loc) : M (gmap loc T) T :=
  fun h =>
    match h !! self with
    | Some o => Ok o h
    | None => Raise AttributeError h
    end.

(** Assigning attributes of the object [self]. *)
Definition store {T} (self : loc) (o : T) : M (gmap loc T) unit :=
  fun h => Ok tt (<[self := o]> h).

(** Creating an object. *)
Definition new {T} (o : T) : M (gmap loc T) loc :=
  fun h => let self := fresh (dom h) in Ok self (<[self := o]> h).

(** [threading.Lock]: [true] when held.  [acquire] blocks while the lock is
    held; [release] of a lock that is not held is a [RuntimeError]. *)
Module Lock.

Definition t : Type := bool.

Definition acquire {S} (lock : t) : M S t :=
  if lock then (fun _ => Blocks) else ret true.

Definition release {S} (lock : t) : M S t :=
  if lock then ret false else raise RuntimeError.

End Lock.

(** ** Module [smartlogic] *)

(** The global names of the module: those its statements bind, the
    attributes every package module has, and the submodules, which become
    attributes of the package once they are imported. *)
Definition smartlogic_globals : list string :=
  ["threading"; "__all__"; "Bit"; "Bits"; "BitsElem"; "CircuitElement";
   "__name__"; "__doc__"; "__package__"; "__loader__"; "__spec__";
   "__path__"; "__file__"; "__cached__"; "__builtins__";
   "base"; "gates"]%string.

Module Bit.

Record t : Type := mk { state : bool; change_lock : Lock.t }.

Abbreviation heap := (gmap loc t).

Definition __init__ (state : value) : M heap loc :=
  new (mk (Py.bool state) false).

Definition _setto (self : loc) (newstate : value) : M heap unit :=
  let* o := load self in
  store self (mk (Py.bool newstate) (change_lock o)).

Definition _get (self : loc) : M heap bool :=
  let* o := load self in
  ret (state o).

Definition change_lock_acquire (self : loc) : M heap unit :=
  let* o := load self in
  let* l := Lock.acquire (change_lock o) in
  store self (mk (state o) l).

Definition change_lock_release (self : loc) : M heap unit :=
  let* o := load self in
  let* l := Lock.release (change_lock o) in
  store self (mk (state o) l).

Definition setto (self : loc) (newstate : value) : M heap unit :=
  change_lock_acquire self ;;;
  _setto self newstate ;;;
  change_lock_release self.

Definition get (self : loc) : M heap bool :=
  change_lock_acquire self ;;;
  let* state := _get self in
  change_lock_release self ;;;
  ret state.

Definition __bool__ (self : loc) : M heap bool := get self.

End Bit.

Module Bits.

Record t : Type := mk { states : list bool; length : nat; change_lock : Lock.t }.

Abbreviation heap := (gmap loc t).

(** [states] defaults to [None]; [len(None)] is a [TypeError]. *)
Definition __init__ (states : option (list value)) : M heap loc :=
  let states0 : list bool := [] in
  let states1 :=
    match states with
    | Some l => List.map Py.bool l
    | None => states0
    end in
  match states with
  | Some l => new (mk states1 (Datatypes.length l) false)
  | None => raise TypeError
  end.

Definition _set (self : loc) (index state : value) : M heap unit :=
  let* o := load self in
  let* l := Py.setitem (states o) index (Py.bool state) in
  store self (mk l (length o) (change_lock o)).

Definition _get (self : loc) (index : value) : M heap bool :=
  let* o := load self in
  Py.getitem (states o) index.

Definition change_lock_acquire (self : loc) : M heap unit :=
  let* o := load self in
  let* l := Lock.acquire (change_lock o) in
  store self (mk (states o) (length o) l).

Definition change_lock_release (self : loc) : M heap unit :=
  let* o := load self in
  let* l := Lock.release (change_lock o) in
  store self (mk (states o) (length o) l).

Definition __setitem__ (self : loc) (index state : value) : M heap unit :=
  change_lock_acquire self ;;;
  _set self index state ;;;
  change_lock_release self.

Definition __getitem__ (self : loc) (index : value) : M heap bool :=
  change_lock_acquire self ;;;
  let* state := _get self index in
  change_lock_release self ;;;
  ret state.

Definition __int__ (self : loc) : M heap Z :=
  change_lock_acquire self ;;;
  let* o := load self in
  let* num :=
    Py.int2 (Py.join (List.map (fun state => Py.str (Py.int_of_bool state))
                               (states o))) in
  change_lock_release self ;;;
  ret num.

End Bits.

Module BitsElem.

Record t : Type := mk { master : loc; index : value }.

Definition __init__ (master : loc) (index : value) : M Bits.heap t :=
  ret (mk master index).

(** The bodies say [index], not [self.index]: a free name, looked up in
    the scopes of the method. *)
Definition setto (self : t) (newstate : value) : M Bits.heap unit :=
  let* index :=
    Py.name [("self", VObj); ("newstate", newstate)]%string
            smartlogic_globals Py.builtins "index" in
  Bits.__setitem__ (master self) index newstate.

Definition get (self : t) : M Bits.heap bool :=
  let* index :=
    Py.name [("self", VObj)]%string smartlogic_globals Py.builtins "index" in
  Bits.__getitem__ (master self) index.

End BitsElem.

Module CircuitElement.

Record t : Type := mk { input_bits : list loc; output_bits : list loc }.

Definition __init__ (input_bits output_bits : list loc) : M Bit.heap t :=
  ret (mk input_bits output_bits).

(** [pass] *)
Definition calc (self : t) : M Bit.heap unit := ret tt.

(** [while True: self.calc()], cut after [n] rounds; [calc] is the method
    of the class of [self]. *)
Fixpoint run (calc : M Bit.heap unit) (n : nat) : M Bit.heap unit :=
  match n with
  | O => ret tt
  | S n' => calc ;;; run calc n'
  end.

End CircuitElement.

(** ** Module [smartlogic.base] *)

Module Diode.

Record t : Type :=
  mk { super : CircuitElement.t; anode_bit : loc; cathode_bit : loc }.

Definition __init__ (anode_bit cathode_bit : loc) : M Bit.heap t :=
  let* super := CircuitElement.__init__ [anode_bit] [cathode_bit] in
  let* a := Py.getitem (CircuitElement.input_bits super) (VInt 0) in
  let* c := Py.getitem (CircuitElement.output_bits super) (VInt 0) in
  ret (mk super a c).

Definition calc (self : t) : M Bit.heap unit :=
  let* v := Bit.get (anode_bit self) in
  Bit.setto (cathode_bit self) (VBool v).

(** [Diode( *args )]: the arguments are bound to the parameters
    [anode_bit], [cathode_bit] of [__init__]. *)
Definition call (args : list loc) : M Bit.heap t :=
  let* bound := Py.positional 2 args in
  match bound with
  | [anode_bit; cathode_bit] => __init__ anode_bit cathode_bit
  | _ => raise TypeError
  end.

End Diode.

Module Triode.

Record t : Type :=
  mk { super : CircuitElement.t; emitter : loc; collector : loc; base : loc }.

Definition __init__ (emitter base collector : loc) : M Bit.heap t :=
  let* super := CircuitElement.__init__ [emitter] [collector] in
  let* e := Py.getitem (CircuitElement.input_bits super) (VInt 0) in
  let* c := Py.getitem (CircuitElement.output_bits super) (VInt 0) in
  ret (mk super e c base).

Definition calc (self : t) : M Bit.heap unit :=
  let* b := Bit.get (base self) in
  if b then
    let* e := Bit.get (emitter self) in
    Bit.setto (collector self) (VBool e)
  else
    Bit.setto (collector self) (VInt 0).

(** [Triode( *args )]: the arguments are bound to the parameters
    [emitter], [base], [collector] of [__init__]. *)
Definition call (args : list loc) : M Bit.heap t :=
  let* bound := Py.positional 3 args in
  match bound with
  | [emitter; base; collector] => __init__ emitter base collector
  | _ => raise TypeError
  end.

End Triode.

(** ** Module [smartlogic.gates] *)

Module Gate.

Record t : Type :=
  mk { super : CircuitElement.t;
       inputs : list loc;
       output : loc;
       in_not : list bool;
       out_not : bool }.

Definition __init__ (input_bits : list loc) (output_bit : loc)
    (in_not : option (list bool)) (out_not : bool) : M Bit.heap t :=
  let* super := CircuitElement.__init__ input_bits [output_bit] in
  let in_not0 : list bool := [] in
  let in_not1 :=
    match in_not with
    | Some flags => flags
    | None => in_not0
    end in
  ret (mk super input_bits output_bit in_not1 out_not).

(** [pass]: the method a subclass overrides. *)
Definition gate_op (inputs : list bool) : value := VNone.

(** [[(not bool(bit) if isnot else bool(bit)) for bit, isnot in pairs]] *)
Fixpoint comprehension (pairs : list (loc * bool)) : M Bit.heap (list bool) :=
  match pairs with
  | [] => ret []
  | (bit, isnot) :: rest =>
      let* b := Bit.__bool__ bit in
      let* bs := comprehension rest in
      ret ((if isnot then negb b else b) :: bs)
  end.

(** [op] is the [gate_op] of the class of [self]. *)
Definition calc (op : list bool -> value) (self : t) : M Bit.heap unit :=
  let* args := comprehension (Py.zip (inputs self) (in_not self)) in
  let result := op args in
  Bit.setto (output self) (if out_not self then Py.not result else result).

End Gate.

Module NOTGate.

Record t : Type := mk { super : CircuitElement.t; input : loc; output : loc }.

Definition __init__ (input_bit output_bit : loc) : M Bit.heap t :=
  let* super := CircuitElement.__init__ [input_bit] [output_bit] in
  let* i := Py.getitem (CircuitElement.input_bits super) (VInt 0) in
  let* o := Py.getitem (CircuitElement.output_bits super) (VInt 0) in
  ret (mk super i o).

Definition calc (self : t) : M Bit.heap unit :=
  let* v := Bit.get (input self) in
  Bit.setto (output self) (Py.not (VBool v)).

(** [NOTGate( *args )]: the arguments are bound to the parameters
    [input_bit], [output_bit] of [__init__]. *)
Definition call (args : list loc) : M Bit.heap t :=
  let* bound := Py.positional 2 args in
  match bound with
  | [input_bit; output_bit] => __init__ input_bit output_bit
  | _ => raise TypeError
  end.

End NOTGate.

Module ANDGate.

Record t : Type :=
  mk { super : CircuitElement.t; inputs : list loc; output : loc }.

Definition __init__ (input_bits : list loc) (output_bit : loc) : M Bit.heap t :=
  let* super := CircuitElement.__init__ input_bits [output_bit] in
  let* o := Py.getitem (CircuitElement.output_bits super) (VInt 0) in
  ret (mk super input_bits o).

Definition calc (self : t) : M Bit.heap unit :=
  let* r := Py.all Bit.__bool__ (inputs self) in
  Bit.setto (output self) (VBool r).

End ANDGate.

(** A subclass of [Gate] whose [gate_op] is [return all(inputs)]. *)
Definition and_op (inputs : list bool) : value := VBool (Py.all_bools inputs).

(** ** Words of the specification *)

(** The value of a bit pattern read as a base-2 numeral whose first bit is
    the most significant one: bit [i] of [n] bits weighs [2^(n-1-i)]. *)
Fixpoint msb_first_value (p : list bool) : Z :=
  match p with
  | [] => 0
  | b :: rest => Py.int_of_bool b * 2 ^ Z.of_nat (length rest) + msb_first_value rest
  end.

(** The numeral printed for one state. *)
Definition numeral (state : bool) : string := Py.str (Py.int_of_bool state).

(** Parsing by hand, most significant digit first: each digit doubles what
    was read so far. *)
Definition parse_base2 (p : list bool) : Z :=
  fold_left (fun acc b => 2 * acc + Py.int_of_bool b) p 0.

(** A [Bit] whose lock is free. *)
Definition bit (b : bool) : Bit.t := Bit.mk b false.

(** Applying an inversion flag. *)
Definition invert (flag b : bool) : bool := if flag then negb b else b.

(** ** Dispatch of [calc]

    An element of any of the classes of the package; [calc] is the method
    Python's method resolution finds for it. *)
Inductive element : Type :=
  | ECircuitElement (e : CircuitElement.t)
  | EDiode (d : Diode.t)
  | ETriode (t : Triode.t)
  | EGate (op : list bool -> value) (g : Gate.t)
  | ENOTGate (n : NOTGate.t)
  | EANDGate (a : ANDGate.t).

Definition calc (e : element) : M Bit.heap unit :=
  match e with
  | ECircuitElement e => CircuitElement.calc e
  | EDiode d => Diode.calc d
  | ETriode t => Triode.calc t
  | EGate op g => Gate.calc op g
  | ENOTGate n => NOTGate.calc n
  | EANDGate a => ANDGate.calc a
  end.

(** The [Bit]s an element holds in its attributes. *)
Definition bits_of (e : element) : list loc :=
  match e with
  | ECircuitElement e => CircuitElement.input_bits e ++ CircuitElement.output_bits e
  | EDiode d => [Diode.anode_bit d; Diode.cathode_bit d]
  | ETriode t => [Triode.emitter t; Triode.base t; Triode.collector t]
  | EGate _ g => Gate.output g :: Gate.inputs g
  | ENOTGate n => [NOTGate.input n; NOTGate.output n]
  | EANDGate a => ANDGate.output a :: ANDGate.inputs a
  end.

(** [l] is a [Bit] of the store whose lock is free. *)
Definition live (h : gmap loc Bit.t) (l : loc) : Prop :=
  exists b, h !! l = Some (bit b).

(** ** Stores and programs used in the examples *)

(** The session of the package's description, with one [calc] where the
    description lets the gate's thread run. *)
Definition description_session : M Bit.heap (list bool) :=
  let* ibit1 := Bit.__init__ (VBool false) in
  let* ibit2 := Bit.__init__ (VBool false) in
  let* obit := Bit.__init__ (VBool false) in
  let* and_gate := ANDGate.__init__ [ibit1; ibit2] obit in
  ANDGate.calc and_gate ;;;
  let* out3 := Bit.get obit in
  Bit.setto ibit1 (VInt 1) ;;;
  ANDGate.calc and_gate ;;;
  let* out4 := Bit.get obit in
  Bit.setto ibit2 (VInt 1) ;;;
  ANDGate.calc and_gate ;;;
  let* out5 := Bit.get obit in
  ret [out3; out4; out5].

(** Three [Bit]s, with identities 0, 1 and 2. *)
Definition three_bits (a b c : bool) : gmap loc Bit.t :=
  <[0%nat := bit a]> (<[1%nat := bit b]> (<[2%nat := bit c]> ∅)).

(** One vector, with identity 0. *)
Definition one_vector (p : list bool) : gmap loc Bits.t :=
  <[0%nat := Bits.mk p (length p) false]> ∅.

(** ** Further vocabulary *)

(** The [Bit]s [calc] writes. *)
Definition outputs_of (e : element) : list loc :=
  match e with
  | ECircuitElement _ => []
  | EDiode d => [Diode.cathode_bit d]
  | ETriode t => [Triode.collector t]
  | EGate _ g => [Gate.output g]
  | ENOTGate n => [NOTGate.output n]
  | EANDGate a => [ANDGate.output a]
  end.

(** The [Bit]s whose state [calc] may read. *)
Definition reads_of (e : element) : list loc :=
  match e with
  | ECircuitElement _ => []
  | EDiode d => [Diode.anode_bit d]
  | ETriode t => [Triode.base t; Triode.emitter t]
  | EGate _ g => Gate.inputs g
  | ENOTGate n => [NOTGate.input n]
  | EANDGate a => ANDGate.inputs a
  end.

(** The store a computation leaves behind, when it comes back at all. *)
Definition final_store {S A} (r : outcome S A) : option S :=
  match r with
  | Ok _ s => Some s
  | Raise _ s => Some s
  | Blocks => None
  end.

(** Every vector of the store declares the length its list of states has. *)
Definition lengths_agree (h : gmap loc Bits.t) : Prop :=
  forall v o, h !! v = Some o -> Bits.length o = length (Bits.states o).

(** Three [Bit]s of which the second has its lock held. *)
Definition second_held (a b c : bool) : gmap loc Bit.t :=
  <[0%nat := bit a]> (<[1%nat := Bit.mk b true]> (<[2%nat := bit c]> ∅)).

(** Five [Bit]s, with identities 0 to 4. *)
Definition five_bits (a b c d e : bool) : gmap loc Bit.t :=
  <[0%nat := bit a]> (<[1%nat := bit b]> (<[2%nat := bit c]>
    (<[3%nat := bit d]> (<[4%nat := bit e]> ∅)))).

(** ** The store of [Bit]s *)

(** Runs the monadic plumbing of a method body, looking objects up again
    after each assignment. *)
Ltac run_store :=
  repeat (cbv beta iota zeta
            delta [bind ret raise load store Lock.acquire Lock.release
                   Bit.state Bit.change_lock
                   Bits.states Bits.length Bits.change_lock];
          rewrite ?lookup_insert_eq).

Section bit_store.
Implicit Types (h : gmap loc Bit.t) (l : loc) (b : bool) (v : value).

Lemma Bit_get_free h l b :
  h !! l = Some (bit b) -> Bit.get l h = Ok b h.
Proof.
  intros Hl.
  unfold Bit.get, Bit.change_lock_acquire, Bit._get, Bit.change_lock_release, bit in *.
  run_store. rewrite Hl. run_store.
  by rewrite insert_insert_eq, insert_id.
Qed.

Lemma Bit_setto_free h l b v :
  h !! l = Some (bit b) ->
  Bit.setto l v h = Ok tt (<[l := bit (Py.bool v)]> h).
Proof.
  intros Hl.
  unfold Bit.setto, Bit.change_lock_acquire, Bit._setto, Bit.change_lock_release, bit in *.
  run_store. rewrite Hl. run_store.
  by rewrite !insert_insert_eq.
Qed.

Lemma Bit_get_held h l b :
  h !! l = Some (Bit.mk b true) -> Bit.get l h = Blocks.
Proof.
  intros Hl. unfold Bit.get, Bit.change_lock_acquire.
  run_store. rewrite Hl. by run_store.
Qed.

End bit_store.

Lemma bind_Ok {S A B} (c : M S A) (k : A -> M S B) (s s' : S) (a : A) :
  c s = Ok a s' -> bind c k s = k a s'.
Proof. intros Hc. unfold bind. by rewrite Hc. Qed.

Lemma three_bits_lookup (a b c : bool) :
  three_bits a b c !! 0%nat = Some (bit a) /\
  three_bits a b c !! 1%nat = Some (bit b) /\
  three_bits a b c !! 2%nat = Some (bit c).
Proof. done. Qed.

(** Reads of free [Bit]s and the writes that follow them. *)
Ltac bit_steps :=
  repeat (cbv beta iota zeta delta [bind ret Bit.__bool__];
          first [ erewrite Bit_get_free by eassumption
                | erewrite Bit_setto_free by eassumption ]);
  cbv beta iota zeta delta [bind ret Bit.__bool__].

(** C1.  An AND gate built over two input [Bit]s holding [a] and [b] (locks
    free, any aliasing between the three [Bit]s): the constructor returns
    the gate and one [calc] returns normally, having set the output [Bit] to
    [a && b] and changed nothing else.  So 0,0 gives 0; 1,0 and 0,1 give 0;
    1,1 gives 1. *)
Theorem ANDGate_calc_two_inputs (h : gmap loc Bit.t) (i1 i2 o : loc) (a b c : bool) :
  h !! i1 = Some (bit a) ->
  h !! i2 = Some (bit b) ->
  h !! o = Some (bit c) ->
  exists g,
    ANDGate.__init__ [i1; i2] o h = Ok g h /\
    ANDGate.inputs g = [i1; i2] /\ ANDGate.output g = o /\
    ANDGate.calc g h = Ok tt (<[o := bit (a && b)]> h).
Proof.
  intros H1 H2 Ho.
  eexists. split; [reflexivity|]. do 2 (split; [reflexivity|]).
  unfold ANDGate.calc. cbn [ANDGate.inputs ANDGate.output Py.all].
  destruct a, b; by bit_steps.
Qed.

(** The outputs of the described session: 0, 0, 1. *)
Example description_session_outputs :
  exists h, description_session ∅ = Ok [false; false; true] h.
Proof. eexists. vm_compute. reflexivity. Qed.

Lemma ANDGate_calc_two_inputs_witness :
  exists g,
    ANDGate.__init__ [0%nat; 1%nat] 2%nat (three_bits true false true)
      = Ok g (three_bits true false true) /\
    ANDGate.inputs g = [0%nat; 1%nat] /\ ANDGate.output g = 2%nat /\
    ANDGate.calc g (three_bits true false true)
      = Ok tt (<[2%nat := bit (true && false)]> (three_bits true false true)).
Proof.
  apply (ANDGate_calc_two_inputs (three_bits true false true) 0 1 2 true false true);
    reflexivity.
Defined.

(** C2.  A triode over three [Bit]s holding [ve] (emitter), [vb] (base) and
    [vc] (collector), locks free, any aliasing: one [calc] returns normally
    and sets the collector to [ve] when the base is true and to false when
    the base is false, whatever the emitter holds; nothing else changes. *)
Theorem Triode_calc_gated (h : gmap loc Bit.t) (e b c : loc) (ve vb vc : bool) :
  h !! e = Some (bit ve) ->
  h !! b = Some (bit vb) ->
  h !! c = Some (bit vc) ->
  exists t,
    Triode.__init__ e b c h = Ok t h /\
    Triode.emitter t = e /\ Triode.base t = b /\ Triode.collector t = c /\
    Triode.calc t h = Ok tt (<[c := bit (if vb then ve else false)]> h) /\
    (vb = true -> Triode.calc t h = Ok tt (<[c := bit ve]> h)) /\
    (vb = false -> Triode.calc t h = Ok tt (<[c := bit false]> h)).
Proof.
  intros He Hb Hc.
  eexists. split; [reflexivity|]. do 3 (split; [reflexivity|]).
  unfold Triode.calc.
  cbn [Triode.emitter Triode.base Triode.collector].
  split; [|split; intros ->]; bit_steps; try destruct vb; by bit_steps.
Qed.

Lemma Triode_calc_gated_witness :
  exists t,
    Triode.__init__ 0%nat 1%nat 2%nat (three_bits true true false)
      = Ok t (three_bits true true false) /\
    Triode.emitter t = 0%nat /\ Triode.base t = 1%nat /\
    Triode.collector t = 2%nat /\
    Triode.calc t (three_bits true true false)
      = Ok tt (<[2%nat := bit true]> (three_bits true true false)) /\
    (true = true -> Triode.calc t (three_bits true true false)
      = Ok tt (<[2%nat := bit true]> (three_bits true true false))) /\
    (true = false -> Triode.calc t (three_bits true true false)
      = Ok tt (<[2%nat := bit false]> (three_bits true true false))).
Proof.
  apply (Triode_calc_gated (three_bits true true false) 0 1 2 true true false);
    reflexivity.
Defined.

(** C7.  A diode between two [Bit]s (locks free).  After [anode.setto(v)]
    and one [calc] the cathode holds [bool(v)].  [calc] leaves the anode as
    it was, also when both names denote one [Bit].  When the two [Bit]s are
    distinct, a value the caller writes to the cathode is lost at the next
    [calc]: the store is the one [calc] alone would have produced, with the
    anode still holding its old value. *)
Theorem Diode_calc_forward (h : gmap loc Bit.t) (anode cathode : loc)
    (a c : bool) (v w : value) :
  h !! anode = Some (bit a) ->
  h !! cathode = Some (bit c) ->
  exists d,
    Diode.__init__ anode cathode h = Ok d h /\
    Diode.anode_bit d = anode /\ Diode.cathode_bit d = cathode /\
    (Bit.setto anode v ;;; Diode.calc d) h
      = Ok tt (<[cathode := bit (Py.bool v)]> (<[anode := bit (Py.bool v)]> h)) /\
    (exists h', Diode.calc d h = Ok tt h' /\
                h' !! anode = Some (bit a) /\ h' !! cathode = Some (bit a)) /\
    (anode <> cathode ->
       (Bit.setto cathode w ;;; Diode.calc d) h = Diode.calc d h /\
       Diode.calc d h = Ok tt (<[cathode := bit a]> h) /\
       (<[cathode := bit a]> h) !! anode = Some (bit a)).
Proof.
  intros Ha Hc.
  eexists. split; [reflexivity|]. do 2 (split; [reflexivity|]).
  unfold Diode.calc. cbn [Diode.anode_bit Diode.cathode_bit].
  assert (Hcalc : (let* x := Bit.get anode in Bit.setto cathode (VBool x)) h
                  = Ok tt (<[cathode := bit a]> h)) by by bit_steps.
  split; [|split; [|intros Hne; split; [|split]]].
  - bit_steps.
    assert (Ha' : <[anode := bit (Py.bool v)]> h !! anode = Some (bit (Py.bool v)))
      by apply lookup_insert_eq.
    assert (Hc' : exists c', <[anode := bit (Py.bool v)]> h !! cathode = Some (bit c')).
    { destruct (decide (anode = cathode)) as [->|Hne].
      - eexists. apply lookup_insert_eq.
      - exists c. by rewrite lookup_insert_ne. }
    destruct Hc' as [c' Hc']. by bit_steps.
  - eexists. split; [exact Hcalc|]. split; [|apply lookup_insert_eq].
    destruct (decide (cathode = anode)) as [->|Hne].
    + apply lookup_insert_eq.
    + by rewrite lookup_insert_ne.
  - rewrite Hcalc. bit_steps.
    assert (Ha' : <[cathode := bit (Py.bool w)]> h !! anode = Some (bit a))
      by by rewrite lookup_insert_ne.
    assert (Hc' : <[cathode := bit (Py.bool w)]> h !! cathode = Some (bit (Py.bool w)))
      by apply lookup_insert_eq.
    bit_steps. by rewrite insert_insert_eq.
  - exact Hcalc.
  - by rewrite lookup_insert_ne.
Qed.

Lemma Diode_calc_forward_witness :
  exists d,
    Diode.__init__ 0%nat 1%nat (three_bits false false false)
      = Ok d (three_bits false false false) /\
    Diode.anode_bit d = 0%nat /\ Diode.cathode_bit d = 1%nat /\
    (Bit.setto 0%nat (VInt 7) ;;; Diode.calc d) (three_bits false false false)
      = Ok tt (<[1%nat := bit true]> (<[0%nat := bit true]> (three_bits false false false))) /\
    (exists h', Diode.calc d (three_bits false false false) = Ok tt h' /\
                h' !! 0%nat = Some (bit false) /\ h' !! 1%nat = Some (bit false)) /\
    (0%nat <> 1%nat ->
       (Bit.setto 1%nat (VBool true) ;;; Diode.calc d) (three_bits false false false)
         = Diode.calc d (three_bits false false false) /\
       Diode.calc d (three_bits false false false)
         = Ok tt (<[1%nat := bit false]> (three_bits false false false)) /\
       (<[1%nat := bit false]> (three_bits false false false)) !! 0%nat
         = Some (bit false)).
Proof.
  apply (Diode_calc_forward (three_bits false false false) 0 1 false false
           (VInt 7) (VBool true)); reflexivity.
Defined.

(** C8, as the code has it.  A triode built from (emitter, base, collector)
    declares [[emitter]] as its inputs and [[collector]] as its outputs; the
    base is kept in the attribute [base] and is in the declared inputs only
    when it is the emitter itself. *)
Theorem Triode_declared_bits (h : gmap loc Bit.t) (e b c : loc) :
  exists t,
    Triode.__init__ e b c h = Ok t h /\
    CircuitElement.input_bits (Triode.super t) = [e] /\
    CircuitElement.output_bits (Triode.super t) = [c] /\
    Triode.base t = b /\
    (b ∈ CircuitElement.input_bits (Triode.super t) <-> b = e).
Proof.
  eexists. split; [reflexivity|]. do 3 (split; [reflexivity|]).
  cbn. apply list_elem_of_singleton.
Qed.

(** C8, as stated, fails: with three distinct [Bit]s the base is not among
    the declared inputs. *)
Lemma Triode_base_not_declared_input :
  exists t,
    Triode.__init__ 0%nat 1%nat 2%nat (three_bits false false false)
      = Ok t (three_bits false false false) /\
    ~ (0%nat ∈ CircuitElement.input_bits (Triode.super t) /\
       1%nat ∈ CircuitElement.input_bits (Triode.super t)).
Proof.
  eexists. split; [reflexivity|]. cbn.
  intros [_ Hbase%list_elem_of_singleton]. discriminate Hbase.
Qed.

(** The list comprehension of [Gate.calc]: it reads the paired inputs in
    order, leaves the store as it was, and yields each state with its flag
    applied.  Inputs beyond the flags, and flags beyond the inputs, are
    dropped by [zip]. *)
Lemma Gate_comprehension_free (h : gmap loc Bit.t) (ins : list loc)
    (vals flags : list bool) :
  Forall2 (fun l v => h !! l = Some (bit v)) ins vals ->
  Gate.comprehension (Py.zip ins flags) h
    = Ok (zip_with (fun v f => invert f v) vals flags) h.
Proof.
  intros Hins. revert flags.
  induction Hins as [|l v ins vals Hl _ IH]; intros [|f flags]; try reflexivity.
  cbn [Py.zip Gate.comprehension zip_with].
  bit_steps. by rewrite IH.
Qed.

(** C3, as the code has it.  A gate built with [in_not] holding a flag for
    every input (inputs and output are
    [Bit]s with free locks, [op] is the [gate_op] of its class): argument
    [k] of [op] is the state of input [k] with flag [k] applied, there are
    as many arguments as inputs, and [calc] writes [bool] of [op]'s result,
    with the output flag applied, to the output.  With [op] the conjunction
    of its arguments, no input flag set and the output flag set, the output
    becomes [negb (a && b)]. *)
Theorem Gate_calc_inversion (op : list bool -> value) (h : gmap loc Bit.t)
    (ins : list loc) (o : loc) (flags : list bool) (out_not : bool)
    (vals : list bool) (c : bool) :
  (length ins <= length flags)%nat ->
  Forall2 (fun l v => h !! l = Some (bit v)) ins vals ->
  h !! o = Some (bit c) ->
  exists g args,
    Gate.__init__ ins o (Some flags) out_not h = Ok g h /\
    length args = length ins /\
    (forall k v f, vals !! k = Some v -> flags !! k = Some f ->
                   args !! k = Some (invert f v)) /\
    Gate.calc op g h
      = Ok tt (<[o := bit (invert out_not (Py.bool (op args)))]> h) /\
    (forall a b, vals = [a; b] -> flags = [false; false] -> out_not = true ->
       Gate.calc and_op g h = Ok tt (<[o := bit (negb (a && b))]> h)).
Proof.
  intros Hlen Hins Ho.
  exists (Gate.mk (CircuitElement.mk ins [o]) ins o flags out_not),
         (zip_with (fun v f => invert f v) vals flags).
  split; [reflexivity|].
  pose proof (Forall2_length _ _ _ Hins) as Hvals.
  split; [rewrite length_zip_with; lia|].
  split.
  { intros k v f Hv Hf. rewrite lookup_zip_with, Hv. cbn. by rewrite Hf. }
  assert (Hcalc : forall op', Gate.calc op' (Gate.mk (CircuitElement.mk ins [o]) ins o flags out_not) h
            = Ok tt (<[o := bit (invert out_not
                 (Py.bool (op' (zip_with (fun v f => invert f v) vals flags))))]> h)).
  { intros op'. unfold Gate.calc.
    cbn [Gate.inputs Gate.in_not Gate.output Gate.out_not].
    cbv beta iota zeta delta [bind].
    rewrite (Gate_comprehension_free h ins vals flags Hins).
    bit_steps. by destruct out_not. }
  split; [apply Hcalc|].
  intros a b -> -> ->. rewrite Hcalc. by destruct a, b.
Qed.

Lemma Gate_calc_inversion_witness :
  exists g args,
    Gate.__init__ [0%nat; 1%nat] 2%nat (Some [false; false]) true
        (three_bits true false false)
      = Ok g (three_bits true false false) /\
    length args = length [0%nat; 1%nat] /\
    (forall k v f, [true; false] !! k = Some v -> [false; false] !! k = Some f ->
                   args !! k = Some (invert f v)) /\
    Gate.calc and_op g (three_bits true false false)
      = Ok tt (<[2%nat := bit (invert true (Py.bool (and_op args)))]>
                 (three_bits true false false)) /\
    (forall a b, [true; false] = [a; b] -> [false; false] = [false; false] ->
       true = true ->
       Gate.calc and_op g (three_bits true false false)
         = Ok tt (<[2%nat := bit (negb (a && b))]> (three_bits true false false))).
Proof.
  apply (Gate_calc_inversion and_op (three_bits true false false)
           [0%nat; 1%nat] 2%nat [false; false] true [true; false] false).
  - cbn. lia.
  - repeat constructor.
  - reflexivity.
Defined.

(** C3, as stated, fails: a gate built from two inputs and [out_not]
    alone, with the conjunction as its [gate_op], is a gate with an output
    inversion flag, yet with both inputs low [calc] sets the output low,
    where NAND is high.  [in_not] was left to its default, [zip] pairs
    nothing and [gate_op] receives no argument. *)
Lemma Gate_and_out_not_default_flags_not_nand :
  exists g,
    Gate.__init__ [0%nat; 1%nat] 2%nat None true (three_bits false false true)
      = Ok g (three_bits false false true) /\
    Gate.calc and_op g (three_bits false false true)
      = Ok tt (<[2%nat := bit false]> (three_bits false false true)) /\
    bit false <> bit (negb (false && false)).
Proof.
  eexists. split; [reflexivity|]. split; [reflexivity|]. discriminate.
Qed.

(** A gate built without [in_not] has no flags: [zip] pairs nothing, [op]
    receives the empty list and the inputs are not read. *)
Lemma Gate_calc_default_flags (op : list bool -> value) (h : gmap loc Bit.t)
    (ins : list loc) (o : loc) (out_not c : bool) :
  h !! o = Some (bit c) ->
  exists g,
    Gate.__init__ ins o None out_not h = Ok g h /\
    Gate.calc op g h = Ok tt (<[o := bit (invert out_not (Py.bool (op [])))]> h).
Proof.
  intros Ho. eexists. split; [reflexivity|].
  unfold Gate.calc. cbn [Gate.inputs Gate.in_not Gate.output Gate.out_not].
  replace (Py.zip ins []) with (@nil (loc * bool)) by by destruct ins.
  cbn [Gate.comprehension]. bit_steps. by destruct out_not.
Qed.

(** ** [calc] on live [Bit]s *)

Section liveness.
Implicit Types (h : gmap loc Bit.t) (l o : loc).

Lemma live_insert h o x l : live h l -> live (<[o := bit x]> h) l.
Proof.
  intros [b Hb]. unfold live.
  destruct (decide (o = l)) as [->|Hne].
  - exists x. apply lookup_insert_eq.
  - exists b. by rewrite lookup_insert_ne.
Qed.

Lemma Bit_setto_live h o v :
  live h o ->
  exists h', Bit.setto o v h = Ok tt h' /\ forall l, live h l -> live h' l.
Proof.
  intros [c Ho]. eexists. split; [by apply (Bit_setto_free h o c)|].
  intros l. apply live_insert.
Qed.

Lemma Py_all_live h (ins : list loc) :
  Forall (live h) ins -> exists r, Py.all Bit.__bool__ ins h = Ok r h.
Proof.
  induction 1 as [|l ins [b Hl] _ [r IH]]; [by exists true|].
  cbn [Py.all]. bit_steps. destruct b; eauto.
Qed.

Lemma Gate_comprehension_live h (ins : list loc) (flags : list bool) :
  Forall (live h) ins ->
  exists args, Gate.comprehension (Py.zip ins flags) h = Ok args h.
Proof.
  intros Hins. revert flags.
  induction Hins as [|l ins [b Hl] _ IH]; intros [|f flags]; try by exists [].
  destruct (IH flags) as [args Hargs].
  cbn [Py.zip Gate.comprehension]. bit_steps. rewrite Hargs. eauto.
Qed.

Lemma calc_live (e : element) h :
  Forall (live h) (bits_of e) ->
  exists h', calc e h = Ok tt h' /\ forall l, live h l -> live h' l.
Proof.
  destruct e as [e|d|t|op g|n|a]; cbn [calc bits_of]; intros Hbits.
  - by exists h.
  - apply Forall_cons in Hbits as [[a Ha] [Hc _]%Forall_cons].
    unfold Diode.calc. bit_steps. by apply Bit_setto_live.
  - apply Forall_cons in Hbits as [[ve He] [[vb Hb] [Hc _]%Forall_cons]%Forall_cons].
    unfold Triode.calc. bit_steps. destruct vb; bit_steps; by apply Bit_setto_live.
  - apply Forall_cons in Hbits as [Ho Hins].
    destruct (Gate_comprehension_live h _ (Gate.in_not g) Hins) as [args Hargs].
    unfold Gate.calc. cbv beta iota zeta delta [bind]. rewrite Hargs.
    by apply Bit_setto_live.
  - apply Forall_cons in Hbits as [[v Hv] [Ho _]%Forall_cons].
    unfold NOTGate.calc. bit_steps. by apply Bit_setto_live.
  - apply Forall_cons in Hbits as [Ho Hins].
    destruct (Py_all_live h _ Hins) as [r Hr].
    unfold ANDGate.calc. cbv beta iota zeta delta [bind]. rewrite Hr.
    by apply Bit_setto_live.
Qed.

Lemma run_live (e : element) (n : nat) h :
  Forall (live h) (bits_of e) ->
  exists h', CircuitElement.run (calc e) n h = Ok tt h'.
Proof.
  revert h. induction n as [|n IH]; intros h Hbits; [by exists h|].
  destruct (calc_live e h Hbits) as (h' & Hcalc & Hkeep).
  cbn [CircuitElement.run]. cbv beta iota zeta delta [bind]. rewrite Hcalc.
  apply IH. eapply Forall_impl; [exact Hbits|exact Hkeep].
Qed.

End liveness.

(** C4.  The elements with a fixed number of signals are [Diode] and
    [NOTGate] (two [Bit]s) and [Triode] (three): constructing one from any
    other number of [Bit]s fails at once with a [TypeError] reported to the
    caller, no element being made and the store left as it was; from the
    right number it returns the element.  The constructors that take lists
    accept lists of any length.  Nothing fails afterwards: one [calc] of an
    element whose [Bit]s are in the store with free locks returns normally,
    and so does every further round of [run]. *)
Theorem construction_checks_arity_calc_total (e : element) (h : gmap loc Bit.t)
    (args : list loc) (h0 : gmap loc Bit.t) :
  Forall (live h) (bits_of e) ->
  (length args <> 2%nat ->
     Diode.call args h0 = Raise TypeError h0 /\
     NOTGate.call args h0 = Raise TypeError h0) /\
  (length args <> 3%nat -> Triode.call args h0 = Raise TypeError h0) /\
  (forall a c, Diode.call [a; c] h0
               = Ok (Diode.mk (CircuitElement.mk [a] [c]) a c) h0) /\
  (forall i o, NOTGate.call [i; o] h0
               = Ok (NOTGate.mk (CircuitElement.mk [i] [o]) i o) h0) /\
  (forall em b c, Triode.call [em; b; c] h0
                  = Ok (Triode.mk (CircuitElement.mk [em] [c]) em c b) h0) /\
  (forall ins outs,
     CircuitElement.__init__ ins outs h0 = Ok (CircuitElement.mk ins outs) h0) /\
  (forall ins o, exists a, ANDGate.__init__ ins o h0 = Ok a h0) /\
  (forall ins o flags out_not,
     exists g, Gate.__init__ ins o flags out_not h0 = Ok g h0) /\
  (exists h', calc e h = Ok tt h') /\
  (forall n, exists h', CircuitElement.run (calc e) n h = Ok tt h').
Proof.
  intros Hbits.
  split.
  { intros Hlen. unfold Diode.call, NOTGate.call, Py.positional.
    cbv beta iota zeta delta [bind].
    destruct (Nat.eqb_spec (length args) 2) as [Heq|_]; [by destruct Hlen|].
    done. }
  split.
  { intros Hlen. unfold Triode.call, Py.positional.
    cbv beta iota zeta delta [bind].
    destruct (Nat.eqb_spec (length args) 3) as [Heq|_]; [by destruct Hlen|].
    done. }
  do 6 (split; [by eauto|]).
  split.
  - destruct (calc_live e h Hbits) as (h' & Hcalc & _). eauto.
  - intros n. by apply run_live.
Qed.

Lemma construction_checks_arity_calc_total_witness :
  (length [0%nat; 1%nat; 2%nat; 3%nat] <> 2%nat ->
     Diode.call [0%nat; 1%nat; 2%nat; 3%nat] (three_bits true true false)
       = Raise TypeError (three_bits true true false) /\
     NOTGate.call [0%nat; 1%nat; 2%nat; 3%nat] (three_bits true true false)
       = Raise TypeError (three_bits true true false)) /\
  (length [0%nat; 1%nat; 2%nat; 3%nat] <> 3%nat ->
     Triode.call [0%nat; 1%nat; 2%nat; 3%nat] (three_bits true true false)
       = Raise TypeError (three_bits true true false)) /\
  (forall a c, Diode.call [a; c] (three_bits true true false)
               = Ok (Diode.mk (CircuitElement.mk [a] [c]) a c) (three_bits true true false)) /\
  (forall i o, NOTGate.call [i; o] (three_bits true true false)
               = Ok (NOTGate.mk (CircuitElement.mk [i] [o]) i o) (three_bits true true false)) /\
  (forall em b c, Triode.call [em; b; c] (three_bits true true false)
                  = Ok (Triode.mk (CircuitElement.mk [em] [c]) em c b)
                       (three_bits true true false)) /\
  (forall ins outs,
     CircuitElement.__init__ ins outs (three_bits true true false)
       = Ok (CircuitElement.mk ins outs) (three_bits true true false)) /\
  (forall ins o, exists a,
     ANDGate.__init__ ins o (three_bits true true false)
       = Ok a (three_bits true true false)) /\
  (forall ins o flags out_not, exists g,
     Gate.__init__ ins o flags out_not (three_bits true true false)
       = Ok g (three_bits true true false)) /\
  (exists h', calc (ETriode (Triode.mk (CircuitElement.mk [0%nat] [2%nat]) 0 2 1))
                (three_bits true true false) = Ok tt h') /\
  (forall n, exists h',
     CircuitElement.run
       (calc (ETriode (Triode.mk (CircuitElement.mk [0%nat] [2%nat]) 0 2 1)))
       n (three_bits true true false) = Ok tt h').
Proof.
  apply (construction_checks_arity_calc_total
           (ETriode (Triode.mk (CircuitElement.mk [0%nat] [2%nat]) 0 2 1))
           (three_bits true true false) [0%nat; 1%nat; 2%nat; 3%nat]
           (three_bits true true false)).
  repeat constructor; eexists; reflexivity.
Defined.

(** ** Signal vectors *)

Section positions.

Lemma position_front (n : nat) (i : Z) :
  0 <= i < Z.of_nat n -> Py.position n i = Some (Z.to_nat i).
Proof.
  intros Hi. unfold Py.position.
  destruct (Z.leb_spec 0 i), (Z.ltb_spec i (Z.of_nat n)); try lia. done.
Qed.

Lemma position_back (n : nat) (i : Z) :
  - Z.of_nat n <= i < 0 -> Py.position n i = Some (Z.to_nat (i + Z.of_nat n)).
Proof.
  intros Hi. unfold Py.position.
  destruct (Z.leb_spec 0 i), (Z.ltb_spec i (Z.of_nat n)),
    (Z.leb_spec (- Z.of_nat n) i), (Z.ltb_spec i 0); try lia; done.
Qed.

Lemma position_outside (n : nat) (i : Z) :
  i < - Z.of_nat n \/ Z.of_nat n <= i -> Py.position n i = None.
Proof.
  intros Hi. unfold Py.position.
  destruct (Z.leb_spec 0 i), (Z.ltb_spec i (Z.of_nat n)),
    (Z.leb_spec (- Z.of_nat n) i), (Z.ltb_spec i 0); try lia; done.
Qed.

End positions.

Section vector_store.
Implicit Types (h : gmap loc Bits.t) (v : loc) (p : list bool).

(** Reading position [k] through an index that denotes it. *)
Lemma Bits_getitem_at h v p len (i : Z) (k : nat) (b : bool) :
  h !! v = Some (Bits.mk p len false) ->
  Py.position (length p) i = Some k ->
  p !! k = Some b ->
  Bits.__getitem__ v (VInt i) h = Ok b h.
Proof.
  intros Hv Hpos Hk.
  unfold Bits.__getitem__, Bits.change_lock_acquire, Bits._get,
    Bits.change_lock_release, Py.getitem, Py.index.
  run_store. rewrite Hv. run_store. rewrite Hpos, Hk. run_store.
  by rewrite insert_insert_eq, insert_id.
Qed.

(** Writing position [k] through an index that denotes it. *)
Lemma Bits_setitem_at h v p len (i : Z) (k : nat) (x : value) :
  h !! v = Some (Bits.mk p len false) ->
  Py.position (length p) i = Some k ->
  Bits.__setitem__ v (VInt i) x h
    = Ok tt (<[v := Bits.mk (<[k := Py.bool x]> p) len false]> h).
Proof.
  intros Hv Hpos.
  unfold Bits.__setitem__, Bits.change_lock_acquire, Bits._set,
    Bits.change_lock_release, Py.setitem, Py.index.
  run_store. rewrite Hv. run_store. rewrite Hpos. run_store.
  by rewrite !insert_insert_eq.
Qed.

(** An index that denotes no position: [IndexError], raised between
    [acquire] and [release], so the lock stays held. *)
Lemma Bits_item_outside h v p len (i : Z) (x : value) :
  h !! v = Some (Bits.mk p len false) ->
  Py.position (length p) i = None ->
  Bits.__getitem__ v (VInt i) h = Raise IndexError (<[v := Bits.mk p len true]> h) /\
  Bits.__setitem__ v (VInt i) x h = Raise IndexError (<[v := Bits.mk p len true]> h).
Proof.
  intros Hv Hpos.
  unfold Bits.__getitem__, Bits.__setitem__, Bits.change_lock_acquire, Bits._get,
    Bits._set, Bits.change_lock_release, Py.getitem, Py.setitem, Py.index.
  run_store. rewrite Hv. run_store. rewrite Hpos. by run_store.
Qed.

(** After such an error every access to the vector waits for ever. *)
Lemma Bits_held_blocks h v p len (i x : value) :
  h !! v = Some (Bits.mk p len true) ->
  Bits.__getitem__ v i h = Blocks /\
  Bits.__setitem__ v i x h = Blocks /\
  Bits.__int__ v h = Blocks.
Proof.
  intros Hv.
  unfold Bits.__getitem__, Bits.__setitem__, Bits.__int__, Bits.change_lock_acquire.
  run_store. rewrite Hv. by run_store.
Qed.

End vector_store.

(** C5, as the code has it.  For a vector of declared length [n] whose lock
    is free: an index [i] with [i < -n] or [n <= i] makes both the read and
    the write fail with [IndexError], no element being changed; an index
    [-n <= i < 0] is not an error: it denotes position [n + i], which the
    read returns and the write sets. *)
Theorem Bits_index_range (h : gmap loc Bits.t) (v : loc) (o : Bits.t) (x : value) :
  h !! v = Some o ->
  Bits.change_lock o = false ->
  Bits.length o = length (Bits.states o) ->
  (forall i, i < - Z.of_nat (Bits.length o) \/ Z.of_nat (Bits.length o) <= i ->
     Bits.__getitem__ v (VInt i) h
       = Raise IndexError (<[v := Bits.mk (Bits.states o) (Bits.length o) true]> h) /\
     Bits.__setitem__ v (VInt i) x h
       = Raise IndexError (<[v := Bits.mk (Bits.states o) (Bits.length o) true]> h)) /\
  (forall i, - Z.of_nat (Bits.length o) <= i < 0 ->
     exists b,
       Bits.states o !! Z.to_nat (Z.of_nat (Bits.length o) + i) = Some b /\
       Bits.__getitem__ v (VInt i) h = Ok b h /\
       Bits.__setitem__ v (VInt i) x h
         = Ok tt (<[v := Bits.mk (<[Z.to_nat (Z.of_nat (Bits.length o) + i) := Py.bool x]>
                                    (Bits.states o))
                                 (Bits.length o) false]> h)).
Proof.
  destruct o as [p len lock]. cbn [Bits.states Bits.length Bits.change_lock].
  intros Hv -> ->. split.
  - intros i Hi. apply Bits_item_outside; [done|]. by apply position_outside.
  - intros i Hi.
    assert (Hpos : Py.position (length p) i = Some (Z.to_nat (Z.of_nat (length p) + i))).
    { rewrite position_back by done. f_equal. lia. }
    destruct (lookup_lt_is_Some_2 p (Z.to_nat (Z.of_nat (length p) + i))) as [b Hb];
      [lia|].
    exists b. split; [done|]. split.
    + by eapply Bits_getitem_at.
    + by eapply Bits_setitem_at.
Qed.

Lemma Bits_index_range_witness :
  (forall i, i < - 4 \/ 4 <= i ->
     Bits.__getitem__ 0%nat (VInt i) (one_vector [true; false; true; true])
       = Raise IndexError (<[0%nat := Bits.mk [true; false; true; true] 4 true]>
                             (one_vector [true; false; true; true])) /\
     Bits.__setitem__ 0%nat (VInt i) (VInt 0) (one_vector [true; false; true; true])
       = Raise IndexError (<[0%nat := Bits.mk [true; false; true; true] 4 true]>
                             (one_vector [true; false; true; true]))) /\
  (forall i, - 4 <= i < 0 ->
     exists b,
       [true; false; true; true] !! Z.to_nat (4 + i) = Some b /\
       Bits.__getitem__ 0%nat (VInt i) (one_vector [true; false; true; true]) = Ok b (one_vector [true; false; true; true]) /\
       Bits.__setitem__ 0%nat (VInt i) (VInt 0) (one_vector [true; false; true; true])
         = Ok tt (<[0%nat := Bits.mk (<[Z.to_nat (4 + i) := false]> [true; false; true; true])
                                 4 false]> (one_vector [true; false; true; true]))).
Proof.
  apply (Bits_index_range (one_vector [true; false; true; true]) 0
           (Bits.mk [true; false; true; true] 4 false) (VInt 0)); reflexivity.
Defined.

(** C5, as stated, fails: on a vector of length 4 the index -1 is outside
    [0, 4), yet the read returns the state at position 3 and the write
    changes that element. *)
Lemma Bits_negative_index_wraps :
  ~ (0 <= -1 < 4) /\
  Bits.__getitem__ 0%nat (VInt (-1)) (one_vector [false; false; false; true])
    = Ok true (one_vector [false; false; false; true]) /\
  Bits.__setitem__ 0%nat (VInt (-1)) (VBool false) (one_vector [false; false; false; true])
    = Ok tt (one_vector [false; false; false; false]).
Proof. split; [lia|]. split; reflexivity. Qed.

(** ** Integer conversion of a vector *)

Section to_int.

Lemma numeral_digit (b : bool) (rest : string) (acc : Z) :
  Py.digits2 acc (String.append (numeral b) rest)
    = Py.digits2 (2 * acc + Py.int_of_bool b) rest.
Proof. by destruct b. Qed.

Lemma append_empty_r (s : string) : String.append s EmptyString = s.
Proof.
  induction s as [|c s IH]; [done|].
  change (String c (String.append s EmptyString) = String c s). by rewrite IH.
Qed.

Lemma join_cons (x : string) (xs : list string) :
  Py.join (x :: xs) = String.append x (Py.join xs).
Proof.
  destruct xs as [|y xs]; [|done].
  symmetry. apply append_empty_r.
Qed.

Lemma digits2_join (p : list bool) (acc : Z) :
  Py.digits2 acc (Py.join (List.map numeral p))
    = Some (fold_left (fun acc b => 2 * acc + Py.int_of_bool b) p acc).
Proof.
  revert acc. induction p as [|b p IH]; intros acc; [done|].
  cbn [List.map fold_left]. by rewrite join_cons, numeral_digit, IH.
Qed.

Lemma fold_msb_first (p : list bool) (acc : Z) :
  fold_left (fun acc b => 2 * acc + Py.int_of_bool b) p acc
    = acc * 2 ^ Z.of_nat (length p) + msb_first_value p.
Proof.
  revert acc. induction p as [|b p IH]; intros acc.
  - cbn. lia.
  - cbn [fold_left msb_first_value length]. rewrite IH.
    rewrite Nat2Z.inj_succ, Z.pow_succ_r by lia. ring.
Qed.

Lemma parse_base2_msb_first (p : list bool) : parse_base2 p = msb_first_value p.
Proof. unfold parse_base2. rewrite fold_msb_first. lia. Qed.

Lemma int2_join (S : Type) (p : list bool) (s : S) :
  p <> [] ->
  Py.int2 (Py.join (List.map numeral p)) s = Ok (parse_base2 p) s.
Proof.
  intros Hp. unfold Py.int2.
  rewrite digits2_join.
  destruct p as [|b p]; [done|].
  cbn [List.map]. rewrite join_cons. by destruct b.
Qed.

End to_int.

(** C6.  For a vector with at least one element whose lock is free, the
    integer conversion returns normally, leaves the store as it was, and
    yields the value of the states read as a base-2 numeral with index 0
    the most significant bit; that is the number parsing the digits by
    hand gives.  States 1,0,1,1 yield 11. *)
Theorem Bits_int_msb_first (h : gmap loc Bits.t) (v : loc) (o : Bits.t) :
  h !! v = Some o ->
  Bits.change_lock o = false ->
  Bits.states o <> [] ->
  Bits.__int__ v h = Ok (msb_first_value (Bits.states o)) h /\
  msb_first_value (Bits.states o) = parse_base2 (Bits.states o) /\
  msb_first_value [true; false; true; true] = 11.
Proof.
  destruct o as [p len lock]. cbn [Bits.states Bits.change_lock].
  intros Hv -> Hp.
  split; [|split; [by rewrite parse_base2_msb_first|done]].
  unfold Bits.__int__, Bits.change_lock_acquire, Bits.change_lock_release.
  run_store. rewrite Hv. run_store.
  change (fun state => Py.str (Py.int_of_bool state)) with numeral.
  rewrite int2_join by done. run_store.
  by rewrite insert_insert_eq, insert_id, parse_base2_msb_first.
Qed.

Lemma Bits_int_msb_first_witness :
  Bits.__int__ 0%nat (one_vector [true; false; true; true])
    = Ok 11 (one_vector [true; false; true; true]) /\
  11 = parse_base2 [true; false; true; true] /\
  msb_first_value [true; false; true; true] = 11.
Proof.
  apply (Bits_int_msb_first (one_vector [true; false; true; true]) 0
           (Bits.mk [true; false; true; true] 4 false)); [reflexivity|reflexivity|].
  discriminate.
Defined.

(** C10.  A vector built from the empty list has declared length 0, and
    the integer conversion of a vector with no element (lock free) returns
    no number: [int] rejects the empty string with [ValueError], which
    reaches the caller while the lock of the vector is still held. *)
Theorem Bits_int_empty (h : gmap loc Bits.t) (v : loc) (o : Bits.t) :
  h !! v = Some o ->
  Bits.change_lock o = false ->
  Bits.length o = 0%nat ->
  Bits.length o = length (Bits.states o) ->
  Bits.__int__ v h = Raise ValueError (<[v := Bits.mk [] 0 true]> h) /\
  (forall n h', Bits.__int__ v h <> Ok n h') /\
  (forall h0, exists v0 h1,
     Bits.__init__ (Some []) h0 = Ok v0 h1 /\
     h1 !! v0 = Some (Bits.mk [] 0 false)).
Proof.
  destruct o as [p len lock]. cbn [Bits.states Bits.length Bits.change_lock].
  intros Hv -> -> Hlen.
  destruct p as [|b p]; [|discriminate Hlen].
  assert (Hint : Bits.__int__ v h = Raise ValueError (<[v := Bits.mk [] 0 true]> h)).
  { unfold Bits.__int__, Bits.change_lock_acquire.
    run_store. rewrite Hv. by run_store. }
  split; [exact Hint|]. split.
  - intros n h'. by rewrite Hint.
  - intros h0. do 2 eexists. split; [reflexivity|]. apply lookup_insert_eq.
Qed.

Lemma Bits_int_empty_witness :
  Bits.__int__ 0%nat (one_vector [])
    = Raise ValueError (<[0%nat := Bits.mk [] 0 true]> (one_vector [])) /\
  (forall n h', Bits.__int__ 0%nat (one_vector []) <> Ok n h') /\
  (forall h0, exists v0 h1,
     Bits.__init__ (Some []) h0 = Ok v0 h1 /\
     h1 !! v0 = Some (Bits.mk [] 0 false)).
Proof.
  apply (Bits_int_empty (one_vector []) 0 (Bits.mk [] 0 false)); reflexivity.
Defined.

(** C9 on the code.  Both methods of a view stop at the free name [index],
    bound in no scope: [NameError], for every vector, index and store, and
    the vector is neither read nor written. *)
Theorem BitsElem_index_unbound (h : gmap loc Bits.t) (m : loc) (i x : value) :
  BitsElem.__init__ m i h = Ok (BitsElem.mk m i) h /\
  BitsElem.get (BitsElem.mk m i) h = Raise (NameError "index") h /\
  BitsElem.setto (BitsElem.mk m i) x h = Raise (NameError "index") h.
Proof. done. Qed.

(** The view over index 0 of the vector holding 1,0: [get] raises. *)
Example BitsElem_get_raises :
  BitsElem.get (BitsElem.mk 0%nat (VInt 0)) (one_vector [true; false])
    = Raise (NameError "index") (one_vector [true; false]).
Proof. reflexivity. Qed.

(** * Further properties of the code *)

(** ** [Bit] *)

Section bit_more.
Implicit Types (h : gmap loc Bit.t) (l : loc) (b : bool) (v : value).

Lemma Bit_setto_held h l b v :
  h !! l = Some (Bit.mk b true) -> Bit.setto l v h = Blocks.
Proof.
  intros Hl. unfold Bit.setto, Bit.change_lock_acquire.
  run_store. rewrite Hl. by run_store.
Qed.

Lemma Bit_absent h l v :
  h !! l = None ->
  Bit.get l h = Raise AttributeError h /\ Bit.setto l v h = Raise AttributeError h.
Proof.
  intros Hl. unfold Bit.get, Bit.setto, Bit.change_lock_acquire.
  run_store. rewrite Hl. by run_store.
Qed.

End bit_more.

(** X1.  Writing then reading a [Bit] whose lock is free: [setto(v)]
    followed by [get()] returns [bool(v)], the lock is free again, and no
    other [Bit] of the store has changed. *)
Theorem Bit_setto_then_get (h : gmap loc Bit.t) (l : loc) (b : bool) (v : value) :
  h !! l = Some (bit b) ->
  exists h',
    (Bit.setto l v ;;; Bit.get l) h = Ok (Py.bool v) h' /\
    h' !! l = Some (bit (Py.bool v)) /\
    (forall l', l' <> l -> h' !! l' = h !! l').
Proof.
  intros Hl. exists (<[l := bit (Py.bool v)]> h).
  assert (Hl' : <[l := bit (Py.bool v)]> h !! l = Some (bit (Py.bool v)))
    by apply lookup_insert_eq.
  split; [by bit_steps|]. split; [done|].
  intros l' Hne. by rewrite lookup_insert_ne.
Qed.

Lemma Bit_setto_then_get_witness :
  exists h',
    (Bit.setto 1%nat (VInt 5) ;;; Bit.get 1%nat) (three_bits false false false)
      = Ok (Py.bool (VInt 5)) h' /\
    h' !! 1%nat = Some (bit (Py.bool (VInt 5))) /\
    (forall l', l' <> 1%nat -> h' !! l' = three_bits false false false !! l').
Proof.
  apply (Bit_setto_then_get (three_bits false false false) 1 false (VInt 5)).
  reflexivity.
Defined.

(** X2.  [Bit(state)] creates an object no identity of the store denoted
    before; it holds [bool(state)] with a free lock, so the default
    [Bit()] is low, and every object that was in the store is unchanged. *)
Theorem Bit_init_fresh (h : gmap loc Bit.t) (state : value) :
  exists l,
    Bit.__init__ state h = Ok l (<[l := bit (Py.bool state)]> h) /\
    h !! l = None /\
    Bit.get l (<[l := bit (Py.bool state)]> h)
      = Ok (Py.bool state) (<[l := bit (Py.bool state)]> h) /\
    (forall l' o, h !! l' = Some o ->
                  <[l := bit (Py.bool state)]> h !! l' = Some o).
Proof.
  exists (fresh (dom h)).
  assert (Hnew : h !! fresh (dom h) = None)
    by (apply not_elem_of_dom, is_fresh).
  split; [reflexivity|]. split; [exact Hnew|]. split.
  - apply Bit_get_free, lookup_insert_eq.
  - intros l' o Hl'. rewrite lookup_insert_ne; [done|]. congruence.
Qed.

(** X3.  On a [Bit] of the store, [get] and [setto] never raise: when the
    lock is free they complete and leave it free, when it is held they
    block. *)
Theorem Bit_access_completes_or_blocks (h : gmap loc Bit.t) (l : loc)
    (o : Bit.t) (v : value) :
  h !! l = Some o ->
  (Bit.change_lock o = false /\
   Bit.get l h = Ok (Bit.state o) h /\
   Bit.setto l v h = Ok tt (<[l := bit (Py.bool v)]> h)) \/
  (Bit.change_lock o = true /\
   Bit.get l h = Blocks /\ Bit.setto l v h = Blocks).
Proof.
  destruct o as [b [|]]; intros Hl; [right|left]; (split; [done|]).
  - split; [by eapply Bit_get_held|by eapply Bit_setto_held].
  - split; [by apply Bit_get_free|by eapply Bit_setto_free].
Qed.

Lemma Bit_access_completes_or_blocks_witness :
  (Bit.change_lock (Bit.mk true true) = false /\
   Bit.get 1%nat (second_held false true false)
     = Ok (Bit.state (Bit.mk true true)) (second_held false true false) /\
   Bit.setto 1%nat (VBool false) (second_held false true false)
     = Ok tt (<[1%nat := bit (Py.bool (VBool false))]> (second_held false true false))) \/
  (Bit.change_lock (Bit.mk true true) = true /\
   Bit.get 1%nat (second_held false true false) = Blocks /\
   Bit.setto 1%nat (VBool false) (second_held false true false) = Blocks).
Proof.
  apply (Bit_access_completes_or_blocks (second_held false true false) 1
           (Bit.mk true true) (VBool false)).
  reflexivity.
Defined.

(** ** Gates *)

Section gates_more.
Implicit Types (h : gmap loc Bit.t) (l o : loc).

(** [all] over inputs that are [Bit]s with free locks. *)
Lemma Py_all_free h (ins : list loc) (vals : list bool) :
  Forall2 (fun l v => h !! l = Some (bit v)) ins vals ->
  Py.all Bit.__bool__ ins h = Ok (forallb (fun b => b) vals) h.
Proof.
  induction 1 as [|l v ins vals Hl _ IH]; [done|].
  cbn [Py.all forallb]. bit_steps. by destruct v.
Qed.

(** [all] stops at the first input that is low. *)
Lemma Py_all_stops h (pre post : list loc) l :
  Forall (fun l' => h !! l' = Some (bit true)) pre ->
  h !! l = Some (bit false) ->
  Py.all Bit.__bool__ (pre ++ l :: post) h = Ok false h.
Proof.
  intros Hpre Hl. induction Hpre as [|l' pre Hl' _ IH]; cbn [app Py.all].
  - by bit_steps.
  - bit_steps. exact IH.
Qed.

(** Writing to a [Bit] that is not among [ins] keeps what [ins] hold. *)
Lemma Forall2_bits_insert h (ins : list loc) (vals : list bool) o x :
  o ∉ ins ->
  Forall2 (fun l v => h !! l = Some (bit v)) ins vals ->
  Forall2 (fun l v => <[o := x]> h !! l = Some (bit v)) ins vals.
Proof.
  intros Ho Hins. induction Hins as [|l v ins vals Hl _ IH]; constructor.
  - rewrite lookup_insert_ne; [done|]. intros ->. apply Ho. by left.
  - apply IH. intros Hin. apply Ho. by right.
Qed.

End gates_more.

(** X4.  A NOT gate over [Bit]s with free locks: one [calc] sets the output
    to the negation of the input and changes nothing else; when input and
    output are one [Bit], [calc] flips it. *)
Theorem NOTGate_calc_negates (h : gmap loc Bit.t) (i o : loc) (a c : bool) :
  h !! i = Some (bit a) ->
  h !! o = Some (bit c) ->
  exists n,
    NOTGate.__init__ i o h = Ok n h /\
    NOTGate.input n = i /\ NOTGate.output n = o /\
    NOTGate.calc n h = Ok tt (<[o := bit (negb a)]> h) /\
    (i = o -> NOTGate.calc n h = Ok tt (<[i := bit (negb c)]> h)).
Proof.
  intros Hi Ho. eexists. split; [reflexivity|]. do 2 (split; [reflexivity|]).
  unfold NOTGate.calc. cbn [NOTGate.input NOTGate.output].
  split; [by bit_steps|].
  intros ->. rewrite Hi in Ho. injection Ho as ->. by bit_steps.
Qed.

Lemma NOTGate_calc_negates_witness :
  exists n,
    NOTGate.__init__ 0%nat 1%nat (three_bits true true false)
      = Ok n (three_bits true true false) /\
    NOTGate.input n = 0%nat /\ NOTGate.output n = 1%nat /\
    NOTGate.calc n (three_bits true true false)
      = Ok tt (<[1%nat := bit (negb true)]> (three_bits true true false)) /\
    (0%nat = 1%nat -> NOTGate.calc n (three_bits true true false)
      = Ok tt (<[0%nat := bit (negb true)]> (three_bits true true false))).
Proof.
  apply (NOTGate_calc_negates (three_bits true true false) 0 1 true true);
    reflexivity.
Defined.

(** X5.  A NOT gate fed back on itself never settles: after [n] rounds of
    [run] the [Bit] holds its first state when [n] is even and the negation
    when [n] is odd. *)
Theorem NOTGate_feedback_alternates (h : gmap loc Bit.t) (l : loc) (a : bool)
    (n : nat) :
  h !! l = Some (bit a) ->
  CircuitElement.run
    (NOTGate.calc (NOTGate.mk (CircuitElement.mk [l] [l]) l l)) n h
  = Ok tt (<[l := bit (if Nat.odd n then negb a else a)]> h).
Proof.
  revert h a. induction n as [|n IH]; intros h a Hl.
  - cbn. unfold ret. by rewrite insert_id.
  - cbn [CircuitElement.run]. cbv beta iota zeta delta [bind].
    unfold NOTGate.calc at 1. cbn [NOTGate.input NOTGate.output].
    bit_steps.
    rewrite (IH _ (negb a)) by apply lookup_insert_eq.
    rewrite insert_insert_eq, Nat.odd_succ, <- Nat.negb_odd.
    by destruct (Nat.odd n), a.
Qed.

Lemma NOTGate_feedback_alternates_witness :
  CircuitElement.run
    (NOTGate.calc (NOTGate.mk (CircuitElement.mk [0%nat] [0%nat]) 0 0)) 3
    (three_bits false false false)
  = Ok tt (<[0%nat := bit (if Nat.odd 3 then negb false else false)]>
             (three_bits false false false)).
Proof.
  apply (NOTGate_feedback_alternates (three_bits false false false) 0 false 3).
  reflexivity.
Defined.

(** X6.  An AND gate with any number of inputs ([Bit]s with free locks):
    one [calc] sets the output to the conjunction of all input states and
    changes nothing else; with no input at all the output becomes high. *)
Theorem ANDGate_calc_all_inputs (h : gmap loc Bit.t) (ins : list loc) (o : loc)
    (vals : list bool) (c : bool) :
  Forall2 (fun l v => h !! l = Some (bit v)) ins vals ->
  h !! o = Some (bit c) ->
  exists g,
    ANDGate.__init__ ins o h = Ok g h /\
    ANDGate.inputs g = ins /\ ANDGate.output g = o /\
    ANDGate.calc g h = Ok tt (<[o := bit (forallb (fun b => b) vals)]> h) /\
    (ins = [] -> ANDGate.calc g h = Ok tt (<[o := bit true]> h)).
Proof.
  intros Hins Ho. eexists. split; [reflexivity|]. do 2 (split; [reflexivity|]).
  assert (Hcalc : ANDGate.calc (ANDGate.mk (CircuitElement.mk ins [o]) ins o) h
                  = Ok tt (<[o := bit (forallb (fun b => b) vals)]> h)).
  { unfold ANDGate.calc. cbn [ANDGate.inputs ANDGate.output].
    cbv beta iota zeta delta [bind]. rewrite (Py_all_free h ins vals Hins).
    by bit_steps. }
  split; [exact Hcalc|].
  intros ->. rewrite Hcalc. by inversion Hins.
Qed.

Lemma ANDGate_calc_all_inputs_witness :
  exists g,
    ANDGate.__init__ [0%nat; 1%nat; 2%nat] 3%nat (five_bits true true true false false)
      = Ok g (five_bits true true true false false) /\
    ANDGate.inputs g = [0%nat; 1%nat; 2%nat] /\ ANDGate.output g = 3%nat /\
    ANDGate.calc g (five_bits true true true false false)
      = Ok tt (<[3%nat := bit (forallb (fun b => b) [true; true; true])]>
                 (five_bits true true true false false)) /\
    ([0%nat; 1%nat; 2%nat] = [] ->
     ANDGate.calc g (five_bits true true true false false)
       = Ok tt (<[3%nat := bit true]> (five_bits true true true false false))).
Proof.
  apply (ANDGate_calc_all_inputs (five_bits true true true false false)
           [0%nat; 1%nat; 2%nat] 3 [true; true; true] false).
  - repeat constructor.
  - reflexivity.
Defined.

(** X7.  An AND gate reads its inputs in order and stops at the first low
    one: when the inputs before it are high, [calc] sets the output low
    whatever follows in the list, even an input whose lock is held or an
    identity that denotes no [Bit]. *)
Theorem ANDGate_calc_stops_at_low (h : gmap loc Bit.t) (pre post : list loc)
    (l o : loc) (c : bool) :
  Forall (fun l' => h !! l' = Some (bit true)) pre ->
  h !! l = Some (bit false) ->
  h !! o = Some (bit c) ->
  ANDGate.calc (ANDGate.mk (CircuitElement.mk (pre ++ l :: post) [o])
                           (pre ++ l :: post) o) h
  = Ok tt (<[o := bit false]> h).
Proof.
  intros Hpre Hl Ho.
  unfold ANDGate.calc. cbn [ANDGate.inputs ANDGate.output].
  cbv beta iota zeta delta [bind]. rewrite (Py_all_stops h pre post l Hpre Hl).
  by bit_steps.
Qed.

Lemma ANDGate_calc_stops_at_low_witness :
  ANDGate.calc (ANDGate.mk (CircuitElement.mk ([] ++ 0%nat :: [1%nat; 7%nat]) [2%nat])
                           ([] ++ 0%nat :: [1%nat; 7%nat]) 2)
               (second_held false true true)
  = Ok tt (<[2%nat := bit false]> (second_held false true true)).
Proof.
  apply (ANDGate_calc_stops_at_low (second_held false true true) []
           [1%nat; 7%nat] 0 2 true).
  - constructor.
  - reflexivity.
  - reflexivity.
Defined.

(** ** Elements in general *)

Section elements_more.
Implicit Types (h : gmap loc Bit.t) (l o : loc) (e : element).

Lemma live_vals h (ins : list loc) :
  Forall (live h) ins ->
  exists vals, Forall2 (fun l v => h !! l = Some (bit v)) ins vals.
Proof.
  induction 1 as [|l ins [v Hl] _ [vals IH]]; [by exists []|].
  exists (v :: vals). by constructor.
Qed.

Lemma Forall2_bits_agree h1 h2 (ins : list loc) (vals : list bool) :
  (forall l, l ∈ ins -> h1 !! l = h2 !! l) ->
  Forall2 (fun l v => h1 !! l = Some (bit v)) ins vals ->
  Forall2 (fun l v => h2 !! l = Some (bit v)) ins vals.
Proof.
  intros Hag Hins. induction Hins as [|l v ins vals Hl _ IH]; constructor.
  - rewrite <- Hag; [done|]. by left.
  - apply IH. intros l' Hl'. apply Hag. by right.
Qed.

(** What [calc] does on a store where the [Bit]s of the element are live,
    and on any other such store that agrees with it on the [Bit]s read:
    nothing, or one write of the same value to the output. *)
Lemma calc_agree e h1 h2 :
  Forall (live h1) (bits_of e) ->
  Forall (live h2) (bits_of e) ->
  (forall l, l ∈ reads_of e -> h1 !! l = h2 !! l) ->
  (outputs_of e = [] /\ calc e h1 = Ok tt h1 /\ calc e h2 = Ok tt h2) \/
  (exists o x, outputs_of e = [o] /\
               calc e h1 = Ok tt (<[o := bit x]> h1) /\
               calc e h2 = Ok tt (<[o := bit x]> h2)).
Proof.
  destruct e as [e|d|t|op g|n|a]; cbn [calc bits_of reads_of outputs_of];
    intros Hb1 Hb2 Hag.
  - by left.
  - right. apply Forall_cons in Hb1 as [[a Ha] [[c1 Hc1] _]%Forall_cons].
    apply Forall_cons in Hb2 as [_ [[c2 Hc2] _]%Forall_cons].
    assert (Ha2 : h2 !! Diode.anode_bit d = Some (bit a))
      by (rewrite <- Hag; [done|by left]).
    exists (Diode.cathode_bit d), a. split; [done|].
    unfold Diode.calc. split; by bit_steps.
  - right.
    apply Forall_cons in Hb1 as [[ve He] [[vb Hb] [[c1 Hc1] _]%Forall_cons]%Forall_cons].
    apply Forall_cons in Hb2 as [_ [_ [[c2 Hc2] _]%Forall_cons]%Forall_cons].
    assert (Hb' : h2 !! Triode.base t = Some (bit vb))
      by (rewrite <- Hag; [done|by left]).
    assert (He' : h2 !! Triode.emitter t = Some (bit ve))
      by (rewrite <- Hag; [done|by right; left]).
    exists (Triode.collector t), (if vb then ve else false). split; [done|].
    unfold Triode.calc. split; bit_steps; destruct vb; by bit_steps.
  - right. apply Forall_cons in Hb1 as [[c1 Hc1] Hins].
    apply Forall_cons in Hb2 as [[c2 Hc2] _].
    destruct (live_vals h1 _ Hins) as [vals Hv1].
    pose proof (Forall2_bits_agree h1 h2 _ vals Hag Hv1) as Hv2.
    eexists (Gate.output g), _. split; [done|].
    unfold Gate.calc. cbv beta iota zeta delta [bind].
    rewrite (Gate_comprehension_free h1 _ vals (Gate.in_not g) Hv1).
    rewrite (Gate_comprehension_free h2 _ vals (Gate.in_not g) Hv2).
    split; by bit_steps.
  - right. apply Forall_cons in Hb1 as [[a Ha] [[c1 Hc1] _]%Forall_cons].
    apply Forall_cons in Hb2 as [_ [[c2 Hc2] _]%Forall_cons].
    assert (Ha2 : h2 !! NOTGate.input n = Some (bit a))
      by (rewrite <- Hag; [done|by left]).
    exists (NOTGate.output n), (negb a). split; [done|].
    unfold NOTGate.calc. split; by bit_steps.
  - right. apply Forall_cons in Hb1 as [[c1 Hc1] Hins].
    apply Forall_cons in Hb2 as [[c2 Hc2] _].
    destruct (live_vals h1 _ Hins) as [vals Hv1].
    pose proof (Forall2_bits_agree h1 h2 _ vals Hag Hv1) as Hv2.
    eexists (ANDGate.output a), _. split; [done|].
    unfold ANDGate.calc. cbv beta iota zeta delta [bind].
    rewrite (Py_all_free h1 _ vals Hv1), (Py_all_free h2 _ vals Hv2).
    split; by bit_steps.
Qed.

(** A store on which [calc] changes nothing stays as it is under [run]. *)
Lemma run_fixed (c : M Bit.heap unit) h (n : nat) :
  c h = Ok tt h -> CircuitElement.run c n h = Ok tt h.
Proof.
  intros Hc. induction n as [|n IH]; [done|].
  cbn [CircuitElement.run]. cbv beta iota zeta delta [bind]. by rewrite Hc.
Qed.

End elements_more.

(** X8.  One [calc] of an element whose [Bit]s are live changes no [Bit]
    other than the element's output: every other object of the store,
    the inputs included, is as before, and no object appears or
    disappears. *)
Theorem calc_changes_only_output (e : element) (h : gmap loc Bit.t) :
  Forall (live h) (bits_of e) ->
  exists h',
    calc e h = Ok tt h' /\
    (forall l, l ∉ outputs_of e -> h' !! l = h !! l) /\
    (forall l, is_Some (h' !! l) <-> is_Some (h !! l)).
Proof.
  intros Hbits.
  destruct (calc_agree e h h Hbits Hbits (fun _ _ => eq_refl))
    as [(Hout & Hcalc & _)|(o & x & Hout & Hcalc & _)].
  - exists h. by rewrite Hout.
  - exists (<[o := bit x]> h). split; [done|]. rewrite Hout.
    assert (Ho : live h o).
    { eapply Forall_forall; [exact Hbits|].
      destruct e; cbn in Hout |- *; try discriminate Hout;
        injection Hout as <-; set_unfold; tauto. }
    split.
    + intros l Hl. rewrite lookup_insert_ne; [done|].
      intros ->. apply Hl. by left.
    + intros l. destruct (decide (o = l)) as [<-|Hne].
      * rewrite lookup_insert_eq. destruct Ho as [b ->]. split; eauto.
      * by rewrite lookup_insert_ne.
Qed.

Lemma calc_changes_only_output_witness :
  exists h',
    calc (EDiode (Diode.mk (CircuitElement.mk [0%nat] [1%nat]) 0 1))
         (three_bits true false false) = Ok tt h' /\
    (forall l, l ∉ outputs_of (EDiode (Diode.mk (CircuitElement.mk [0%nat] [1%nat]) 0 1)) ->
               h' !! l = three_bits true false false !! l) /\
    (forall l, is_Some (h' !! l) <-> is_Some (three_bits true false false !! l)).
Proof.
  apply (calc_changes_only_output
           (EDiode (Diode.mk (CircuitElement.mk [0%nat] [1%nat]) 0 1))
           (three_bits true false false)).
  repeat constructor; eexists; reflexivity.
Defined.

(** X9.  The value [calc] writes depends on the [Bit]s the element reads
    and on nothing else: on two stores that agree on those [Bit]s (and
    where the element's [Bit]s are live) [calc] leaves the output in the
    same state. *)
Theorem calc_depends_on_reads_only (e : element) (h1 h2 : gmap loc Bit.t) (o : loc) :
  Forall (live h1) (bits_of e) ->
  Forall (live h2) (bits_of e) ->
  (forall l, l ∈ reads_of e -> h1 !! l = h2 !! l) ->
  o ∈ outputs_of e ->
  exists h1' h2',
    calc e h1 = Ok tt h1' /\ calc e h2 = Ok tt h2' /\ h1' !! o = h2' !! o.
Proof.
  intros Hb1 Hb2 Hag Ho.
  destruct (calc_agree e h1 h2 Hb1 Hb2 Hag)
    as [(Hout & _)|(o' & x & Hout & Hc1 & Hc2)].
  - rewrite Hout in Ho. by apply elem_of_nil in Ho.
  - rewrite Hout in Ho. apply list_elem_of_singleton in Ho as ->.
    do 2 eexists. split; [exact Hc1|]. split; [exact Hc2|].
    by rewrite !lookup_insert_eq.
Qed.

Lemma calc_depends_on_reads_only_witness :
  exists h1' h2',
    calc (EANDGate (ANDGate.mk (CircuitElement.mk [0%nat; 1%nat] [2%nat]) [0%nat; 1%nat] 2))
         (three_bits true true false) = Ok tt h1' /\
    calc (EANDGate (ANDGate.mk (CircuitElement.mk [0%nat; 1%nat] [2%nat]) [0%nat; 1%nat] 2))
         (three_bits true true true) = Ok tt h2' /\
    h1' !! 2%nat = h2' !! 2%nat.
Proof.
  apply (calc_depends_on_reads_only
           (EANDGate (ANDGate.mk (CircuitElement.mk [0%nat; 1%nat] [2%nat]) [0%nat; 1%nat] 2))
           (three_bits true true false) (three_bits true true true) 2).
  - repeat constructor; eexists; reflexivity.
  - repeat constructor; eexists; reflexivity.
  - intros l [->|[->|[]%elem_of_nil]%elem_of_cons]%elem_of_cons; reflexivity.
  - cbn. by left.
Defined.

(** X10.  Without feedback the polling loop settles at once: when the
    output of an element is none of the [Bit]s it reads, any number of
    rounds of [run], one at least, leaves the store exactly as a single
    [calc] does, and a further [calc] changes nothing. *)
Theorem run_settles_after_one_round (e : element) (h : gmap loc Bit.t) (n : nat) :
  Forall (live h) (bits_of e) ->
  (forall o, o ∈ outputs_of e -> o ∉ reads_of e) ->
  exists h',
    calc e h = Ok tt h' /\
    calc e h' = Ok tt h' /\
    CircuitElement.run (calc e) (S n) h = Ok tt h'.
Proof.
  intros Hbits Hfb.
  destruct (calc_agree e h h Hbits Hbits (fun _ _ => eq_refl))
    as [(Hout & Hcalc & _)|(o & x & Hout & Hcalc & _)].
  - exists h. split; [done|]. split; [done|]. by apply run_fixed.
  - exists (<[o := bit x]> h).
    assert (Hbits' : Forall (live (<[o := bit x]> h)) (bits_of e)).
    { eapply Forall_impl; [exact Hbits|]. intros l. apply live_insert. }
    assert (Hag : forall l, l ∈ reads_of e -> h !! l = <[o := bit x]> h !! l).
    { intros l Hl. rewrite lookup_insert_ne; [done|].
      intros ->. apply (Hfb l); [|done]. rewrite Hout. by left. }
    destruct (calc_agree e h (<[o := bit x]> h) Hbits Hbits' Hag)
      as [(Hout' & _)|(o' & x' & Hout' & Hc1 & Hc2)];
      [by rewrite Hout in Hout'|].
    rewrite Hout in Hout'. injection Hout' as <-.
    rewrite Hcalc in Hc1. injection Hc1 as Hx.
    assert (x' = x) as ->.
    { apply (f_equal (fun m => m !! o)) in Hx.
      rewrite !lookup_insert_eq in Hx. by injection Hx. }
    rewrite insert_insert_eq in Hc2.
    split; [done|]. split; [done|].
    cbn [CircuitElement.run]. cbv beta iota zeta delta [bind]. rewrite Hcalc.
    by apply run_fixed.
Qed.

Lemma run_settles_after_one_round_witness :
  exists h',
    calc (ETriode (Triode.mk (CircuitElement.mk [0%nat] [2%nat]) 0 2 1))
         (three_bits true true false) = Ok tt h' /\
    calc (ETriode (Triode.mk (CircuitElement.mk [0%nat] [2%nat]) 0 2 1)) h' = Ok tt h' /\
    CircuitElement.run
      (calc (ETriode (Triode.mk (CircuitElement.mk [0%nat] [2%nat]) 0 2 1)))
      (S 4) (three_bits true true false) = Ok tt h'.
Proof.
  apply (run_settles_after_one_round
           (ETriode (Triode.mk (CircuitElement.mk [0%nat] [2%nat]) 0 2 1))
           (three_bits true true false) 4).
  - repeat constructor; eexists; reflexivity.
  - intros o [->|[]%elem_of_nil]%elem_of_cons
      [Heq|[Heq|[]%elem_of_nil]%elem_of_cons]%elem_of_cons; discriminate Heq.
Defined.

(** ** Circuits of several elements *)



(** X12.  Two diodes in series over three distinct [Bit]s, [x -> y -> z].
    Evaluated in the order of the wiring, one round brings the state of
    [x] to [z].  Evaluated in the other order, the first round gives [z]
    the old state of [y]; the second round brings the state of [x]. *)
Theorem Diode_series_rounds (h : gmap loc Bit.t) (x y z : loc) (vx vy vz : bool) :
  h !! x = Some (bit vx) ->
  h !! y = Some (bit vy) ->
  h !! z = Some (bit vz) ->
  x <> y -> y <> z -> x <> z ->
  exists d1 d2,
    Diode.__init__ x y h = Ok d1 h /\
    Diode.__init__ y z h = Ok d2 h /\
    (Diode.calc d1 ;;; Diode.calc d2) h
      = Ok tt (<[z := bit vx]> (<[y := bit vx]> h)) /\
    (Diode.calc d2 ;;; Diode.calc d1) h
      = Ok tt (<[y := bit vx]> (<[z := bit vy]> h)) /\
    (Diode.calc d2 ;;; Diode.calc d1 ;;; Diode.calc d2 ;;; Diode.calc d1) h
      = Ok tt (<[z := bit vx]> (<[y := bit vx]> h)).
Proof.
  intros Hx Hy Hz Hxy Hyz Hxz.
  do 2 eexists. do 2 (split; [reflexivity|]).
  unfold Diode.calc. cbn [Diode.anode_bit Diode.cathode_bit].
  assert (Hfwd : forall m vx' vy' vz',
            m !! x = Some (bit vx') -> m !! y = Some (bit vy') ->
            m !! z = Some (bit vz') ->
            ((let* v := Bit.get x in Bit.setto y (VBool v)) ;;;
             (let* v := Bit.get y in Bit.setto z (VBool v))) m
            = Ok tt (<[z := bit vx']> (<[y := bit vx']> m))).
  { intros m vx' vy' vz' Hmx Hmy Hmz. bit_steps.
    assert (Hy' : <[y := bit vx']> m !! y = Some (bit vx')) by apply lookup_insert_eq.
    assert (Hz' : <[y := bit vx']> m !! z = Some (bit vz')) by by rewrite lookup_insert_ne.
    by bit_steps. }
  assert (Hbwd : forall m vx' vy' vz',
            m !! x = Some (bit vx') -> m !! y = Some (bit vy') ->
            m !! z = Some (bit vz') ->
            ((let* v := Bit.get y in Bit.setto z (VBool v)) ;;;
             (let* v := Bit.get x in Bit.setto y (VBool v))) m
            = Ok tt (<[y := bit vx']> (<[z := bit vy']> m))).
  { intros m vx' vy' vz' Hmx Hmy Hmz. bit_steps.
    assert (Hx' : <[z := bit vy']> m !! x = Some (bit vx')) by by rewrite lookup_insert_ne.
    assert (Hy' : <[z := bit vy']> m !! y = Some (bit vy')) by by rewrite lookup_insert_ne.
    by bit_steps. }
  split; [by eapply Hfwd|]. split; [by eapply Hbwd|].
  set (m := <[y := bit vx]> (<[z := bit vy]> h)).
  assert (Hmx : m !! x = Some (bit vx)).
  { unfold m. by rewrite !lookup_insert_ne. }
  assert (Hmy : m !! y = Some (bit vx)) by apply lookup_insert_eq.
  assert (Hmz : m !! z = Some (bit vy)).
  { unfold m. rewrite lookup_insert_ne by done. apply lookup_insert_eq. }
  transitivity
    (((let* v := Bit.get y in Bit.setto z (VBool v)) ;;;
      (let* v := Bit.get x in Bit.setto y (VBool v))) m).
  { pose proof (Hbwd h vx vy vz Hx Hy Hz) as Hfirst. fold m in Hfirst.
    cbv beta iota zeta delta [bind] in Hfirst |- *.
    destruct (Bit.get y h) as [v0 s0| |]; try discriminate Hfirst.
    destruct (Bit.setto z (VBool v0) s0) as [[] s1| |]; try discriminate Hfirst.
    destruct (Bit.get x s1) as [v2 s2| |]; try discriminate Hfirst.
    destruct (Bit.setto y (VBool v2) s2) as [[] s3| |]; try discriminate Hfirst.
    by injection Hfirst as ->. }
  rewrite (Hbwd m vx vx vy Hmx Hmy Hmz). unfold m. f_equal.
  apply map_eq. intros k.
  destruct (decide (k = y)) as [->|Hky]; [by rewrite lookup_insert_eq, lookup_insert_ne, lookup_insert_eq|].
  rewrite (lookup_insert_ne _ y k) by done.
  destruct (decide (k = z)) as [->|Hkz]; [by rewrite !lookup_insert_eq|].
  by rewrite !lookup_insert_ne.
Qed.

Lemma Diode_series_rounds_witness :
  exists d1 d2,
    Diode.__init__ 0%nat 1%nat (three_bits true false false)
      = Ok d1 (three_bits true false false) /\
    Diode.__init__ 1%nat 2%nat (three_bits true false false)
      = Ok d2 (three_bits true false false) /\
    (Diode.calc d1 ;;; Diode.calc d2) (three_bits true false false)
      = Ok tt (<[2%nat := bit true]> (<[1%nat := bit true]> (three_bits true false false))) /\
    (Diode.calc d2 ;;; Diode.calc d1) (three_bits true false false)
      = Ok tt (<[1%nat := bit true]> (<[2%nat := bit false]> (three_bits true false false))) /\
    (Diode.calc d2 ;;; Diode.calc d1 ;;; Diode.calc d2 ;;; Diode.calc d1)
       (three_bits true false false)
      = Ok tt (<[2%nat := bit true]> (<[1%nat := bit true]> (three_bits true false false))).
Proof.
  apply (Diode_series_rounds (three_bits true false false) 0 1 2 true false false);
    try reflexivity; discriminate.
Defined.

(** ** [Gate] and its flags *)

(** [Gate.calc] on inputs and an output that are [Bit]s with free locks. *)
Lemma Gate_calc_free (op : list bool -> value) (h : gmap loc Bit.t) (g : Gate.t)
    (vals : list bool) (c : bool) :
  Forall2 (fun l v => h !! l = Some (bit v)) (Gate.inputs g) vals ->
  h !! Gate.output g = Some (bit c) ->
  Gate.calc op g h
  = Ok tt (<[Gate.output g :=
               bit (invert (Gate.out_not g)
                      (Py.bool (op (zip_with (fun v f => invert f v) vals
                                             (Gate.in_not g)))))]> h).
Proof.
  intros Hins Ho. unfold Gate.calc. cbv beta iota zeta delta [bind].
  rewrite (Gate_comprehension_free h _ vals _ Hins).
  bit_steps. by destruct (Gate.out_not g).
Qed.

(** X13.  A [Gate] of the base class, whose [gate_op] is left as [pass]:
    whatever its inputs hold and whatever its input flags are, [calc] sets
    the output to the value of [out_not]: low for a plain gate, high for an
    inverted one. *)
Theorem Gate_without_op_is_constant (h : gmap loc Bit.t) (ins : list loc)
    (o : loc) (flags : option (list bool)) (out_not c : bool) :
  Forall (live h) ins ->
  h !! o = Some (bit c) ->
  exists g,
    Gate.__init__ ins o flags out_not h = Ok g h /\
    Gate.calc Gate.gate_op g h = Ok tt (<[o := bit out_not]> h).
Proof.
  intros Hins Ho. eexists. split; [reflexivity|].
  destruct (live_vals h ins Hins) as [vals Hvals].
  rewrite (Gate_calc_free Gate.gate_op h _ vals c); [|done..].
  cbn. by destruct out_not.
Qed.

Lemma Gate_without_op_is_constant_witness :
  exists g,
    Gate.__init__ [0%nat; 1%nat] 2%nat (Some [false; true]) true
        (three_bits true false false)
      = Ok g (three_bits true false false) /\
    Gate.calc Gate.gate_op g (three_bits true false false)
      = Ok tt (<[2%nat := bit true]> (three_bits true false false)).
Proof.
  apply (Gate_without_op_is_constant (three_bits true false false)
           [0%nat; 1%nat] 2 (Some [false; true]) true false).
  - repeat constructor; eexists; reflexivity.
  - reflexivity.
Defined.

(** X14.  A gate whose [gate_op] is the conjunction of its arguments, built
    without [in_not]: [calc] does not read the inputs (they need not even
    be [Bit]s) and sets the output to the negation of [out_not].  Built
    with [out_not] it holds the output low for all inputs. *)
Theorem Gate_and_without_flags_is_constant (h : gmap loc Bit.t) (ins : list loc)
    (o : loc) (out_not c : bool) :
  h !! o = Some (bit c) ->
  exists g,
    Gate.__init__ ins o None out_not h = Ok g h /\
    Gate.calc and_op g h = Ok tt (<[o := bit (negb out_not)]> h).
Proof.
  intros Ho.
  destruct (Gate_calc_default_flags and_op h ins o out_not c Ho) as (g & Hg & Hc).
  exists g. split; [exact Hg|]. rewrite Hc. by destruct out_not.
Qed.

Lemma Gate_and_without_flags_is_constant_witness :
  exists g,
    Gate.__init__ [0%nat; 1%nat] 2%nat None true (three_bits false false true)
      = Ok g (three_bits false false true) /\
    Gate.calc and_op g (three_bits false false true)
      = Ok tt (<[2%nat := bit (negb true)]> (three_bits false false true)).
Proof.
  apply (Gate_and_without_flags_is_constant (three_bits false false true)
           [0%nat; 1%nat] 2 true true).
  reflexivity.
Defined.

(** X15.  The flags give the other gates of the family from the
    conjunction: with both input flags and the output flag set a two-input
    gate computes OR, with both input flags set and the output flag clear
    it computes NOR, and with no flag set it computes AND. *)
Theorem Gate_flags_give_or_nor_and (h : gmap loc Bit.t) (i1 i2 o : loc)
    (a b c : bool) :
  h !! i1 = Some (bit a) ->
  h !! i2 = Some (bit b) ->
  h !! o = Some (bit c) ->
  (exists g, Gate.__init__ [i1; i2] o (Some [true; true]) true h = Ok g h /\
             Gate.calc and_op g h = Ok tt (<[o := bit (a || b)]> h)) /\
  (exists g, Gate.__init__ [i1; i2] o (Some [true; true]) false h = Ok g h /\
             Gate.calc and_op g h = Ok tt (<[o := bit (negb (a || b))]> h)) /\
  (exists g, Gate.__init__ [i1; i2] o (Some [false; false]) false h = Ok g h /\
             Gate.calc and_op g h = Ok tt (<[o := bit (a && b)]> h)).
Proof.
  intros H1 H2 Ho.
  assert (Hins : Forall2 (fun l v => h !! l = Some (bit v)) [i1; i2] [a; b])
    by (repeat constructor; done).
  repeat split; (eexists; split; [reflexivity|]);
    rewrite (Gate_calc_free and_op h _ [a; b] c) by done;
    by destruct a, b.
Qed.

Lemma Gate_flags_give_or_nor_and_witness :
  (exists g, Gate.__init__ [0%nat; 1%nat] 2%nat (Some [true; true]) true
               (three_bits false true false) = Ok g (three_bits false true false) /\
             Gate.calc and_op g (three_bits false true false)
               = Ok tt (<[2%nat := bit (false || true)]> (three_bits false true false))) /\
  (exists g, Gate.__init__ [0%nat; 1%nat] 2%nat (Some [true; true]) false
               (three_bits false true false) = Ok g (three_bits false true false) /\
             Gate.calc and_op g (three_bits false true false)
               = Ok tt (<[2%nat := bit (negb (false || true))]> (three_bits false true false))) /\
  (exists g, Gate.__init__ [0%nat; 1%nat] 2%nat (Some [false; false]) false
               (three_bits false true false) = Ok g (three_bits false true false) /\
             Gate.calc and_op g (three_bits false true false)
               = Ok tt (<[2%nat := bit (false && true)]> (three_bits false true false))).
Proof.
  apply (Gate_flags_give_or_nor_and (three_bits false true false) 0 1 2
           false true false); reflexivity.
Defined.

(** ** Signal vectors, continued *)

Section vector_more.
Implicit Types (h : gmap loc Bits.t) (v : loc) (p : list bool).

(** An index within [-n, n) denotes the position [i mod n]. *)
Lemma position_mod (n : nat) (i : Z) :
  - Z.of_nat n <= i < Z.of_nat n ->
  Py.position n i = Some (Z.to_nat (i mod Z.of_nat n)).
Proof.
  intros Hi. destruct (Z.neg_nonneg_cases i) as [Hneg|Hpos].
  - rewrite position_back by lia. f_equal. f_equal.
    rewrite <- (Z_mod_plus_full i 1 (Z.of_nat n)).
    rewrite Z.mod_small; lia.
  - rewrite position_front by lia. by rewrite Z.mod_small by lia.
Qed.

Lemma position_lt (n : nat) (i : Z) (k : nat) :
  Py.position n i = Some k -> (k < n)%nat.
Proof.
  unfold Py.position.
  destruct (Z.leb_spec 0 i), (Z.ltb_spec i (Z.of_nat n)),
    (Z.leb_spec (- Z.of_nat n) i), (Z.ltb_spec i 0);
    cbn; intros Hk; try discriminate Hk; injection Hk as <-; lia.
Qed.

(** A value that is no index: [TypeError], with the lock left held. *)
Lemma Bits_item_not_int h v p len (i x : value) :
  h !! v = Some (Bits.mk p len false) ->
  Py.index i = None ->
  Bits.__getitem__ v i h = Raise TypeError (<[v := Bits.mk p len true]> h) /\
  Bits.__setitem__ v i x h = Raise TypeError (<[v := Bits.mk p len true]> h).
Proof.
  intros Hv Hi.
  unfold Bits.__getitem__, Bits.__setitem__, Bits.change_lock_acquire, Bits._get,
    Bits._set, Bits.change_lock_release, Py.getitem, Py.setitem.
  run_store. rewrite Hv. run_store. rewrite Hi. by run_store.
Qed.

Lemma Bits_absent h v (i x : value) :
  h !! v = None ->
  Bits.__getitem__ v i h = Raise AttributeError h /\
  Bits.__setitem__ v i x h = Raise AttributeError h /\
  Bits.__int__ v h = Raise AttributeError h.
Proof.
  intros Hv.
  unfold Bits.__getitem__, Bits.__setitem__, Bits.__int__, Bits.change_lock_acquire.
  run_store. rewrite Hv. by run_store.
Qed.

Lemma msb_first_value_bounds p :
  0 <= msb_first_value p < 2 ^ Z.of_nat (length p).
Proof.
  induction p as [|b p IH]; [cbn; lia|].
  cbn [msb_first_value length]. rewrite Nat2Z.inj_succ, Z.pow_succ_r by lia.
  destruct b; cbn [Py.int_of_bool]; lia.
Qed.

Lemma msb_first_value_inj p q :
  length p = length q -> msb_first_value p = msb_first_value q -> p = q.
Proof.
  revert q. induction p as [|b p IH]; intros [|c q] Hlen Hval;
    try discriminate Hlen; [done|].
  injection Hlen as Hlen. cbn [msb_first_value] in Hval. rewrite <- Hlen in Hval.
  pose proof (msb_first_value_bounds p) as Hp.
  pose proof (msb_first_value_bounds q) as Hq. rewrite <- Hlen in Hq.
  destruct b, c; cbn [Py.int_of_bool] in Hval; try lia;
    f_equal; apply IH; try done; lia.
Qed.

Lemma msb_first_value_insert p (k : nat) (old b : bool) :
  p !! k = Some old ->
  msb_first_value (<[k := b]> p)
  = msb_first_value p
    + (Py.int_of_bool b - Py.int_of_bool old)
      * 2 ^ (Z.of_nat (length p) - 1 - Z.of_nat k).
Proof.
  revert k. induction p as [|a p IH]; intros [|k] Hk; try discriminate Hk.
  - injection Hk as ->. cbn [insert list_insert msb_first_value length].
    replace (Z.of_nat (S (length p)) - 1 - Z.of_nat 0) with (Z.of_nat (length p)) by lia.
    ring.
  - cbn in Hk. change (<[S k := b]> (a :: p)) with (a :: <[k := b]> p).
    cbn [msb_first_value length]. rewrite length_insert, (IH k Hk).
    replace (Z.of_nat (S (length p)) - 1 - Z.of_nat (S k))
      with (Z.of_nat (length p) - 1 - Z.of_nat k) by lia.
    ring.
Qed.

(** The conversion of a vector with at least one element. *)
Lemma Bits_int_free h v p len :
  h !! v = Some (Bits.mk p len false) ->
  p <> [] ->
  Bits.__int__ v h = Ok (msb_first_value p) h.
Proof.
  intros Hv Hp.
  unfold Bits.__int__, Bits.change_lock_acquire, Bits.change_lock_release.
  run_store. rewrite Hv. run_store.
  change (fun state => Py.str (Py.int_of_bool state)) with numeral.
  rewrite int2_join by done. run_store.
  by rewrite insert_insert_eq, insert_id, parse_base2_msb_first.
Qed.

End vector_more.

(** X16.  [Bits(states)] creates a new vector holding [bool] of each given
    state in order, declares their number as its length and has a free
    lock; called with no argument, [Bits()] fails with [TypeError] and
    creates nothing. *)
Theorem Bits_init_result (h : gmap loc Bits.t) (states : list value) :
  Bits.__init__ None h = Raise TypeError h /\
  exists v,
    Bits.__init__ (Some states) h
      = Ok v (<[v := Bits.mk (List.map Py.bool states) (length states) false]> h) /\
    h !! v = None /\
    length (List.map Py.bool states) = length states.
Proof.
  split; [reflexivity|].
  exists (fresh (dom h)). split; [reflexivity|]. split.
  - apply not_elem_of_dom, is_fresh.
  - apply length_map.
Qed.

(** X17.  Writing an element of a vector and reading it back: for an index
    [i] within [-n, n) (lock free), after [m[i] = x] the read [m[i]]
    returns [bool(x)], and a read at any index that denotes another
    position returns what it returned before. *)
Theorem Bits_setitem_then_getitem (h : gmap loc Bits.t) (v : loc) (o : Bits.t)
    (i : Z) (x : value) :
  h !! v = Some o ->
  Bits.change_lock o = false ->
  - Z.of_nat (length (Bits.states o)) <= i < Z.of_nat (length (Bits.states o)) ->
  exists h',
    Bits.__setitem__ v (VInt i) x h = Ok tt h' /\
    Bits.__getitem__ v (VInt i) h' = Ok (Py.bool x) h' /\
    (forall j b,
       - Z.of_nat (length (Bits.states o)) <= j < Z.of_nat (length (Bits.states o)) ->
       j mod Z.of_nat (length (Bits.states o)) <> i mod Z.of_nat (length (Bits.states o)) ->
       Bits.__getitem__ v (VInt j) h = Ok b h ->
       Bits.__getitem__ v (VInt j) h' = Ok b h').
Proof.
  destruct o as [p len lock]. cbn [Bits.states Bits.change_lock].
  intros Hv -> Hi.
  pose proof (position_mod _ _ Hi) as Hpos.
  pose proof (position_lt _ _ _ Hpos) as Hk.
  set (k := Z.to_nat (i mod Z.of_nat (length p))) in *.
  exists (<[v := Bits.mk (<[k := Py.bool x]> p) len false]> h).
  split; [by eapply Bits_setitem_at|]. split.
  - eapply Bits_getitem_at; [apply lookup_insert_eq| |].
    + by rewrite length_insert.
    + by apply list_lookup_insert_eq.
  - intros j b Hj Hne Hget.
    pose proof (position_mod _ _ Hj) as Hposj.
    pose proof (position_lt _ _ _ Hposj) as Hkj.
    destruct (lookup_lt_is_Some_2 p _ Hkj) as [b' Hb'].
    rewrite (Bits_getitem_at h v p len j _ b' Hv Hposj Hb') in Hget.
    injection Hget as ->.
    eapply Bits_getitem_at; [apply lookup_insert_eq| |].
    + rewrite length_insert. exact Hposj.
    + rewrite list_lookup_insert_ne; [done|].
      unfold k. intros Heq. apply Hne. apply Z2Nat.inj in Heq; [done|..];
        apply Z.mod_pos_bound; lia.
Qed.

Lemma Bits_setitem_then_getitem_witness :
  exists h',
    Bits.__setitem__ 0%nat (VInt (-1)) (VInt 1) (one_vector [true; false; false]) = Ok tt h' /\
    Bits.__getitem__ 0%nat (VInt (-1)) h' = Ok (Py.bool (VInt 1)) h' /\
    (forall j b,
       - Z.of_nat (length [true; false; false]) <= j < Z.of_nat (length [true; false; false]) ->
       j mod Z.of_nat (length [true; false; false])
         <> (-1) mod Z.of_nat (length [true; false; false]) ->
       Bits.__getitem__ 0%nat (VInt j) (one_vector [true; false; false])
         = Ok b (one_vector [true; false; false]) ->
       Bits.__getitem__ 0%nat (VInt j) h' = Ok b h').
Proof.
  apply (Bits_setitem_then_getitem (one_vector [true; false; false]) 0
           (Bits.mk [true; false; false] 3 false) (-1) (VInt 1)).
  - reflexivity.
  - reflexivity.
  - cbn. lia.
Defined.

(** X18.  No operation changes the length of a vector: whatever the index
    and the value, and whether the operation returns or raises, the vector
    afterwards declares the same length and holds as many states as
    before. *)
Theorem Bits_length_never_changes (h : gmap loc Bits.t) (v : loc) (o : Bits.t)
    (i x : value) (r : outcome (gmap loc Bits.t) unit) :
  h !! v = Some o ->
  r = (Bits.__setitem__ v i x h)
  \/ r = (Bits.__getitem__ v i ;;; ret tt) h
  \/ r = (Bits.__int__ v ;;; ret tt) h ->
  match final_store r with
  | Some h' =>
      exists o', h' !! v = Some o' /\
                 Bits.length o' = Bits.length o /\
                 length (Bits.states o') = length (Bits.states o)
  | None => r = Blocks
  end.
Proof.
  intros Hv Hr.
  destruct (final_store r) as [h'|] eqn:Hfin;
    [|by destruct r; try discriminate Hfin].
  revert Hv Hr h' Hfin.
  destruct o as [p len [|]]; intros Hv Hr h' Hfin.
  - (* lock held: the operation does not come back *)
    destruct (Bits_held_blocks h v p len i x Hv) as (Hg & Hs & Hi).
    destruct Hr as [->|[->| ->]]; cbv beta iota zeta delta [bind] in Hfin;
      rewrite ?Hg, ?Hs, ?Hi in Hfin; discriminate Hfin.
  - assert (Hheld : forall e, final_store (A := unit) (Raise e (<[v := Bits.mk p len true]> h))
                              = Some h' ->
              exists o', h' !! v = Some o' /\ Bits.length o' = len /\
                         length (Bits.states o') = length p).
    { intros e [= <-]. eexists. by rewrite lookup_insert_eq. }
    destruct Hr as [->|[->| ->]].
    + destruct (Py.index i) as [z|] eqn:Hz.
      * destruct i as [|b|z'| |]; try discriminate Hz.
        -- destruct (Py.position (length p) (Py.int_of_bool b)) as [k|] eqn:Hpos.
           ++ assert (Hset : Bits.__setitem__ v (VBool b) x h
                  = Ok tt (<[v := Bits.mk (<[k := Py.bool x]> p) len false]> h)).
              { unfold Bits.__setitem__, Bits.change_lock_acquire, Bits._set,
                  Bits.change_lock_release, Py.setitem, Py.index.
                run_store. rewrite Hv. run_store. rewrite Hpos. run_store.
                by rewrite !insert_insert_eq. }
              rewrite Hset in Hfin. injection Hfin as <-.
              eexists. rewrite lookup_insert_eq. split; [done|].
              cbn. by rewrite length_insert.
           ++ assert (Hset : Bits.__setitem__ v (VBool b) x h
                  = Raise IndexError (<[v := Bits.mk p len true]> h)).
              { unfold Bits.__setitem__, Bits.change_lock_acquire, Bits._set,
                  Bits.change_lock_release, Py.setitem, Py.index.
                run_store. rewrite Hv. run_store. rewrite Hpos. by run_store. }
              rewrite Hset in Hfin. by eapply Hheld.
        -- destruct (Py.position (length p) z') as [k|] eqn:Hpos.
           ++ rewrite (Bits_setitem_at h v p len z' k x Hv Hpos) in Hfin.
              injection Hfin as <-.
              eexists. rewrite lookup_insert_eq. split; [done|].
              cbn. by rewrite length_insert.
           ++ destruct (Bits_item_outside h v p len z' x Hv Hpos) as [_ Hset].
              rewrite Hset in Hfin. by eapply Hheld.
      * destruct (Bits_item_not_int h v p len i x Hv Hz) as [_ Hset].
        rewrite Hset in Hfin. by eapply Hheld.
    + cbv beta iota zeta delta [bind ret] in Hfin.
      unfold Bits.__getitem__, Bits.change_lock_acquire, Bits._get,
        Bits.change_lock_release, Py.getitem in Hfin.
      revert Hfin. run_store. rewrite Hv. run_store.
      destruct (Py.index i) as [z|]; run_store; [|apply Hheld].
      destruct (Py.position (length p) z) as [k|]; run_store; [|apply Hheld].
      destruct (p !! k) as [b|]; run_store; [|apply Hheld].
      rewrite insert_insert_eq. intros [= <-].
      eexists. by rewrite lookup_insert_eq.
    + cbv beta iota zeta delta [bind ret] in Hfin.
      unfold Bits.__int__, Bits.change_lock_acquire, Bits.change_lock_release,
        Py.int2 in Hfin.
      revert Hfin. run_store. rewrite Hv. run_store.
      destruct (Py.join _); run_store; [apply Hheld|].
      destruct (Py.digits2 _ _); run_store; [|apply Hheld].
      rewrite insert_insert_eq. intros [= <-].
      eexists. by rewrite lookup_insert_eq.
Qed.

Lemma Bits_length_never_changes_witness :
  match final_store (Bits.__setitem__ 0%nat (VInt 9) (VInt 1) (one_vector [true; false])) with
  | Some h' =>
      exists o', h' !! 0%nat = Some o' /\
                 Bits.length o' = Bits.length (Bits.mk [true; false] 2 false) /\
                 length (Bits.states o')
                   = length (Bits.states (Bits.mk [true; false] 2 false))
  | None => Bits.__setitem__ 0%nat (VInt 9) (VInt 1) (one_vector [true; false]) = Blocks
  end.
Proof.
  apply (Bits_length_never_changes (one_vector [true; false]) 0
           (Bits.mk [true; false] 2 false) (VInt 9) (VInt 1)).
  - reflexivity.
  - left. reflexivity.
Defined.

(** X19.  An index error leaves the vector locked.  After a read or a
    write at an index [i < -n] or [i >= n] has raised [IndexError], the
    lock of the vector is still held, and every later read, write or
    integer conversion of that vector blocks. *)
Theorem Bits_index_error_locks_vector (h : gmap loc Bits.t) (v : loc) (o : Bits.t)
    (i : Z) (x : value) :
  h !! v = Some o ->
  Bits.change_lock o = false ->
  i < - Z.of_nat (length (Bits.states o)) \/ Z.of_nat (length (Bits.states o)) <= i ->
  exists h',
    Bits.__getitem__ v (VInt i) h = Raise IndexError h' /\
    Bits.__setitem__ v (VInt i) x h = Raise IndexError h' /\
    (forall j y,
       Bits.__getitem__ v j h' = Blocks /\
       Bits.__setitem__ v j y h' = Blocks /\
       Bits.__int__ v h' = Blocks).
Proof.
  destruct o as [p len lock]. cbn [Bits.states Bits.change_lock].
  intros Hv -> Hi.
  exists (<[v := Bits.mk p len true]> h).
  destruct (Bits_item_outside h v p len i x Hv (position_outside _ _ Hi)) as [Hg Hs].
  split; [exact Hg|]. split; [exact Hs|].
  intros j y. eapply Bits_held_blocks. apply lookup_insert_eq.
Qed.

Lemma Bits_index_error_locks_vector_witness :
  exists h',
    Bits.__getitem__ 0%nat (VInt 5) (one_vector [true; false; true; true])
      = Raise IndexError h' /\
    Bits.__setitem__ 0%nat (VInt 5) (VInt 1) (one_vector [true; false; true; true])
      = Raise IndexError h' /\
    (forall j y,
       Bits.__getitem__ 0%nat j h' = Blocks /\
       Bits.__setitem__ 0%nat j y h' = Blocks /\
       Bits.__int__ 0%nat h' = Blocks).
Proof.
  apply (Bits_index_error_locks_vector (one_vector [true; false; true; true]) 0
           (Bits.mk [true; false; true; true] 4 false) 5 (VInt 1)).
  - reflexivity.
  - reflexivity.
  - cbn. lia.
Defined.

(** X20.  What may serve as an index of a vector (lock free): [None] or a
    string is a [TypeError] for both the read and the write; a [bool] is
    the integer it stands for, so [True] is index 1 and [False] index 0. *)
Theorem Bits_index_must_be_integer (h : gmap loc Bits.t) (v : loc) (o : Bits.t)
    (i x : value) (b : bool) :
  h !! v = Some o ->
  Bits.change_lock o = false ->
  i = VNone \/ (exists s, i = VStr s) ->
  (exists h', Bits.__getitem__ v i h = Raise TypeError h' /\
              Bits.__setitem__ v i x h = Raise TypeError h') /\
  Bits.__getitem__ v (VBool b) h = Bits.__getitem__ v (VInt (if b then 1 else 0)) h /\
  Bits.__setitem__ v (VBool b) x h = Bits.__setitem__ v (VInt (if b then 1 else 0)) x h.
Proof.
  destruct o as [p len lock]. cbn [Bits.change_lock].
  intros Hv -> Hi. split; [|by destruct b].
  exists (<[v := Bits.mk p len true]> h).
  apply Bits_item_not_int; [done|].
  by destruct Hi as [->|[s ->]].
Qed.

Lemma Bits_index_must_be_integer_witness :
  (exists h', Bits.__getitem__ 0%nat (VStr "1") (one_vector [true; false]) = Raise TypeError h' /\
              Bits.__setitem__ 0%nat (VStr "1") (VInt 1) (one_vector [true; false])
                = Raise TypeError h') /\
  Bits.__getitem__ 0%nat (VBool true) (one_vector [true; false])
    = Bits.__getitem__ 0%nat (VInt (if true then 1 else 0)) (one_vector [true; false]) /\
  Bits.__setitem__ 0%nat (VBool true) (VInt 1) (one_vector [true; false])
    = Bits.__setitem__ 0%nat (VInt (if true then 1 else 0)) (VInt 1) (one_vector [true; false]).
Proof.
  apply (Bits_index_must_be_integer (one_vector [true; false]) 0
           (Bits.mk [true; false] 2 false) (VStr "1") (VInt 1) true).
  - reflexivity.
  - reflexivity.
  - right. eexists. reflexivity.
Defined.

(** X21.  The integer of a vector of [n >= 1] elements (lock free) lies in
    [0, 2^n): it is never negative and never needs more than [n] bits. *)
Theorem Bits_int_range (h : gmap loc Bits.t) (v : loc) (o : Bits.t) :
  h !! v = Some o ->
  Bits.change_lock o = false ->
  Bits.states o <> [] ->
  exists n,
    Bits.__int__ v h = Ok n h /\
    0 <= n < 2 ^ Z.of_nat (length (Bits.states o)).
Proof.
  destruct o as [p len lock]. cbn [Bits.states Bits.change_lock].
  intros Hv -> Hp. exists (msb_first_value p).
  split; [by eapply Bits_int_free|apply msb_first_value_bounds].
Qed.

Lemma Bits_int_range_witness :
  exists n,
    Bits.__int__ 0%nat (one_vector [true; true; true]) = Ok n (one_vector [true; true; true]) /\
    0 <= n < 2 ^ Z.of_nat (length (Bits.states (Bits.mk [true; true; true] 3 false))).
Proof.
  apply (Bits_int_range (one_vector [true; true; true]) 0
           (Bits.mk [true; true; true] 3 false)).
  - reflexivity.
  - reflexivity.
  - discriminate.
Defined.

(** X22.  The integer determines the states: two vectors with the same
    number of elements (one at least, locks free) that convert to the same
    integer hold the same states. *)
Theorem Bits_int_determines_states (h1 h2 : gmap loc Bits.t) (v1 v2 : loc)
    (o1 o2 : Bits.t) (n : Z) :
  h1 !! v1 = Some o1 ->
  h2 !! v2 = Some o2 ->
  Bits.change_lock o1 = false ->
  Bits.change_lock o2 = false ->
  Bits.states o1 <> [] ->
  length (Bits.states o1) = length (Bits.states o2) ->
  Bits.__int__ v1 h1 = Ok n h1 ->
  Bits.__int__ v2 h2 = Ok n h2 ->
  Bits.states o1 = Bits.states o2.
Proof.
  destruct o1 as [p len1 lock1], o2 as [q len2 lock2].
  cbn [Bits.states Bits.change_lock].
  intros Hv1 Hv2 -> -> Hp Hlen Hn1 Hn2.
  assert (Hq : q <> []) by (intros ->; by destruct p).
  rewrite (Bits_int_free h1 v1 p len1 Hv1 Hp) in Hn1.
  rewrite (Bits_int_free h2 v2 q len2 Hv2 Hq) in Hn2.
  apply msb_first_value_inj; [done|]. congruence.
Qed.

Lemma Bits_int_determines_states_witness :
  Bits.states (Bits.mk [true; false] 2 false) = Bits.states (Bits.mk [true; false] 2 false).
Proof.
  apply (Bits_int_determines_states (one_vector [true; false]) (one_vector [true; false])
           0 0 (Bits.mk [true; false] 2 false) (Bits.mk [true; false] 2 false) 2);
    try reflexivity.
  discriminate.
Defined.

(** X23.  Writing one element moves the integer of the vector by the
    weight of that element: after [m[i] = x] with [0 <= i < n], [int(m)]
    is the former integer plus [(int(bool(x)) - old) * 2^(n-1-i)], where
    [old] is the state the element had. *)
Theorem Bits_setitem_then_int (h : gmap loc Bits.t) (v : loc) (o : Bits.t)
    (i : Z) (x : value) (old : bool) :
  h !! v = Some o ->
  Bits.change_lock o = false ->
  0 <= i < Z.of_nat (length (Bits.states o)) ->
  Bits.states o !! Z.to_nat i = Some old ->
  exists h',
    (Bits.__setitem__ v (VInt i) x ;;; Bits.__int__ v) h
      = Ok (msb_first_value (Bits.states o)
            + (Py.int_of_bool (Py.bool x) - Py.int_of_bool old)
              * 2 ^ (Z.of_nat (length (Bits.states o)) - 1 - i)) h'.
Proof.
  destruct o as [p len lock]. cbn [Bits.states Bits.change_lock].
  intros Hv -> Hi Hold.
  exists (<[v := Bits.mk (<[Z.to_nat i := Py.bool x]> p) len false]> h).
  cbv beta iota zeta delta [bind].
  rewrite (Bits_setitem_at h v p len i (Z.to_nat i) x Hv (position_front _ _ Hi)).
  rewrite (Bits_int_free _ v (<[Z.to_nat i := Py.bool x]> p) len).
  - rewrite (msb_first_value_insert p _ old) by done.
    by rewrite Z2Nat.id by lia.
  - apply lookup_insert_eq.
  - intros Hnil. apply (f_equal length) in Hnil.
    rewrite length_insert in Hnil. cbn in Hnil. lia.
Qed.

Lemma Bits_setitem_then_int_witness :
  exists h',
    (Bits.__setitem__ 0%nat (VInt 1) (VInt 1) ;;; Bits.__int__ 0%nat)
      (one_vector [true; false; true; true])
      = Ok (msb_first_value (Bits.states (Bits.mk [true; false; true; true] 4 false))
            + (Py.int_of_bool (Py.bool (VInt 1)) - Py.int_of_bool false)
              * 2 ^ (Z.of_nat (length (Bits.states (Bits.mk [true; false; true; true] 4 false)))
                     - 1 - 1)) h'.
Proof.
  apply (Bits_setitem_then_int (one_vector [true; false; true; true]) 0
           (Bits.mk [true; false; true; true] 4 false) 1 (VInt 1) false).
  - reflexivity.
  - reflexivity.
  - cbn. lia.
  - reflexivity.
Defined.

(** ** [Triode], continued *)

(** X24.  A triode whose base is low does not look at its emitter: [calc]
    sets the collector low whatever the emitter is, even a [Bit] whose lock
    is held or an identity that denotes no [Bit]. *)
Theorem Triode_base_low_ignores_emitter (h : gmap loc Bit.t) (e b c : loc)
    (vc : bool) :
  h !! b = Some (bit false) ->
  h !! c = Some (bit vc) ->
  exists t,
    Triode.__init__ e b c h = Ok t h /\
    Triode.calc t h = Ok tt (<[c := bit false]> h).
Proof.
  intros Hb Hc. eexists. split; [reflexivity|].
  unfold Triode.calc. cbn [Triode.emitter Triode.base Triode.collector].
  by bit_steps.
Qed.

Lemma Triode_base_low_ignores_emitter_witness :
  exists t,
    Triode.__init__ 1%nat 0%nat 2%nat (second_held false true true)
      = Ok t (second_held false true true) /\
    Triode.calc t (second_held false true true)
      = Ok tt (<[2%nat := bit false]> (second_held false true true)).
Proof.
  apply (Triode_base_low_ignores_emitter (second_held false true true) 1 0 2 true);
    reflexivity.
Defined.
